(** * The arcade backend: authentication and demo CRUD over a relational store

    A shallow embedding of [apps/backend/src/index.ts]: the Express
    handlers become functions from a request and a world (the two Prisma
    tables, the R2 bucket and the log of Prisma calls) to a response and a
    new world.  Exceptions thrown by the Prisma client or by the storage
    client are values of an error monad, and every [try { } catch { }] of
    the source is a [try_catch] here.  [console.log] and [console.error]
    are not modelled. *)

From Stdlib Require Import ZArith NArith String Ascii List Bool Lia DecimalString.
From Stdlib Require DecimalN DecimalPos.
From stdpp Require Import base option list gmap strings sorting.

Open Scope string_scope.
Set Warnings "-register-all".

(** ** JSON values

    What [express.json()] puts in [req.body] and what [res.json] sends.
    [JDate] is a JavaScript [Date] (milliseconds since the epoch), which
    [res.json] serialises as its ISO string.  An object is the list of its
    own properties, in insertion order. *)

Inductive json : Type :=
| JNull
| JBool (b : bool)
| JNum (n : Z)
| JStr (s : string)
| JDate (t : N)
| JArr (items : list json)
| JObj (props : list (string * json)).

(** [o[k]] on an association list of properties. *)
Fixpoint assoc (k : string) (props : list (string * json)) : option json :=
  match props with
  | [] => None
  | (k', v) :: rest => if String.eqb k k' then Some v else assoc k rest
  end.

(** Property access [body.k]; [None] is JavaScript's [undefined].  Arrays
    have none of the property names used by the handlers. *)
Definition get_field (k : string) (j : json) : option json :=
  match j with
  | JObj props => assoc k props
  | _ => None
  end.

(** The strict equality [a === b] on values read from a parsed JSON body:
    primitives compare by value, objects and arrays by reference (two
    different properties of a parsed body never hold the same reference). *)
Definition strict_eq (a b : option json) : bool :=
  match a, b with
  | None, None => true
  | Some JNull, Some JNull => true
  | Some (JBool x), Some (JBool y) => Bool.eqb x y
  | Some (JNum x), Some (JNum y) => Z.eqb x y
  | Some (JStr x), Some (JStr y) => String.eqb x y
  | _, _ => false
  end.

(** An object literal in which a property whose value is [undefined] is
    dropped, as [JSON.stringify] does. *)
Fixpoint object_of (props : list (string * option json)) : list (string * json) :=
  match props with
  | [] => []
  | (k, Some v) :: rest => (k, v) :: object_of rest
  | (_, None) :: rest => object_of rest
  end.

(** ** Strings *)

(** JavaScript truthiness of a string. *)
Definition truthy (s : string) : bool := negb (String.eqb s "").

(** [a || b] on an optional string: the first one that is neither
    [undefined] nor empty. *)
Definition or_else (a : option string) (b : string) : string :=
  match a with
  | Some s => if truthy s then s else b
  | None => b
  end.

(** [s.split(sep)] for a one-character separator: [split_go] carries the
    piece read so far. *)
Fixpoint split_go (sep : ascii) (cur : string) (s : string) : list string :=
  match s with
  | EmptyString => [cur]
  | String c rest =>
      if Ascii.eqb c sep then cur :: split_go sep "" rest
      else split_go sep (cur ++ String c "") rest
  end.

Definition split (sep : ascii) (s : string) : list string := split_go sep "" s.

(** A string stands for the JavaScript string it is the UTF-8 encoding
    of.  [s.length] counts UTF-16 code units: one for the first byte of a
    character of one, two or three bytes, two for the first byte of a
    character of four bytes (a surrogate pair), none for a continuation
    byte. *)
Definition utf16_units (c : ascii) : nat :=
  let n := nat_of_ascii c in
  if (n <? 128)%nat then 1%nat
  else if (n <? 192)%nat then 0%nat
  else if (n <? 240)%nat then 1%nat
  else 2%nat.

Fixpoint js_length (s : string) : nat :=
  match s with
  | EmptyString => 0%nat
  | String c rest => (utf16_units c + js_length rest)%nat
  end.

(** Whether the character occurs in the string. *)
Fixpoint has_char (c : ascii) (s : string) : bool :=
  match s with
  | EmptyString => false
  | String c' rest => Ascii.eqb c' c || has_char c rest
  end.

(** The decimal digits of a non-negative integer, as template literals
    print a number. *)
Definition decimal (n : N) : string := NilZero.string_of_uint (N.to_uint n).

(** ** HTTP *)

Record Response : Type := mkResponse {
  status : nat;
  body : json
}.

(** [res.status(code).json({ message })]. *)
Definition message_only (m : string) : json := JObj [("message", JStr m)].

Definition fail (code : nat) (m : string) : Response := mkResponse code (message_only m).

(** [res.json(value)]: the status stays at its default, 200. *)
Definition ok (value : json) : Response := mkResponse 200 value.

(** The file multer's [upload.single('image')] leaves in [req.file]. *)
Record MulterFile : Type := mkFile {
  originalname : string;
  mimetype : string;
  buffer : list Byte.byte
}.

(** [req.user]. *)
Record Identity : Type := mkIdentity { userId : string }.

(** [AuthRequest]: the parts of the Express request the handlers read. *)
Record AuthRequest : Type := mkRequest {
  authorization : option string;   (* req.headers.authorization *)
  params_id : string;              (* req.params.id *)
  req_body : json;                 (* req.body *)
  file : option MulterFile;        (* req.file *)
  user : option Identity           (* req.user *)
}.

Definition set_user (req : AuthRequest) (u : Identity) : AuthRequest :=
  {| authorization := authorization req; params_id := params_id req;
     req_body := req_body req; file := file req; user := Some u |}.

(** ** The relational store

    The Prisma schema file is not part of the backend sources; the rows
    below carry the columns the handlers read and write.  Both tables are
    keyed by their primary key [id]. *)

Module User.
(** Modelled from the spec: the [User] model of the missing Prisma schema,
    "identifier, email (unique), plaintext password, name, creation
    timestamp". *)
Record t : Type := mk {
  id : string;
  email : string;
  password : string;
  name : string;
  createdAt : N
}.
End User.

Module Demo.
(** Modelled from the spec: the [Demo] model of the missing Prisma schema,
    "identifier, title, description, type tag, content payload, optional
    thumbnail URL, optional source URL, public/private flag, view counter,
    owning user reference, creation timestamp".  The range of the integer
    column [views] is not modelled. *)
Record t : Type := mk {
  id : string;
  title : string;
  description : string;
  type : string;
  content : string;
  thumbnail : option string;
  url : option string;
  isPublic : bool;
  views : Z;
  userId : string;
  createdAt : N
}.
End Demo.

(** The seven properties both demo handlers destructure from [req.body]
  and hand to Prisma as they are; [None] is [undefined]. *)
Module DemoInput.
Record t : Type := mk {
  title : option json;
  description : option json;
  type : option json;
  content : option json;
  thumbnail : option json;
  url : option json;
  isPublic : option json
}.
End DemoInput.

Module UserInput.
Record t : Type := mk {
  email : option json;
  password : option json;
  name : option json
}.
End UserInput.

(** The calls the handlers make on the Prisma client, with their
    arguments. *)
Inductive Query : Type :=
| UserFindUniqueByEmail (email : option json)
| UserFindUniqueById (id : string)
| UserCreate (data : UserInput.t)
| DemoCreate (data : DemoInput.t) (views : Z) (connect : string)
| DemoFindMany (userId : string)
| DemoFindFirst (id userId : string)
| DemoIncrementViews (id : string) (by_ : Z)
| DemoUpdate (id : string) (data : DemoInput.t)
| DemoDelete (id : string).

(** The parameters of a [PutObjectCommand]; the storage keeps one object
    under a bucket name and a key, and a put under a key that is taken
    replaces what was there. *)
Record R2Object : Type := mkObject {
  Bucket : string;
  Key : string;
  Body : list Byte.byte;
  ContentType : string
}.

Record World : Type := mkWorld {
  users : gmap string User.t;
  demos : gmap string Demo.t;
  bucket : gmap (string * string) R2Object;   (* by bucket name and key *)
  prisma_log : list Query       (* the calls made so far, oldest first *)
}.

(** What the surroundings decide during one request: the clock, the
    identifier the database draws for a new row, and whether the database
    or the object storage is failing (with the error's message). *)
Record Ambient : Type := mkAmbient {
  now : N;
  new_id : string;
  db_fault : option string;
  r2_fault : option string
}.

(** ** Computations that read and write the world and may throw *)

Inductive result (A : Type) : Type :=
| Ok (a : A)
| Throw (message : string).
Arguments Ok {A} a.
Arguments Throw {A} message.

Definition M (A : Type) : Type := World -> World * result A.

Definition ret {A} (a : A) : M A := fun w => (w, Ok a).

Definition throw {A} (e : string) : M A := fun w => (w, Throw e).

Definition bind {A B} (m : M A) (k : A -> M B) : M B :=
  fun w => match m w with
           | (w', Ok a) => k a w'
           | (w', Throw e) => (w', Throw e)
           end.

Notation "'let!' x ':=' m 'in' k" := (bind m (fun x => k))
  (at level 10, x name, m at level 100, k at level 200).

(** [try { m } catch (error) { h error }]: what [m] wrote before it threw
    stays written. *)
Definition try_catch {A} (m : M A) (h : string -> M A) : M A :=
  fun w => match m w with
           | (w', Ok a) => (w', Ok a)
           | (w', Throw e) => h e w'
           end.

(** A handler whose whole body is a [try] with a [catch] that answers. *)
Definition answer (m : M Response) (h : string -> Response) : World -> World * Response :=
  fun w => match m w with
           | (w', Ok r) => (w', r)
           | (w', Throw e) => (w', h e)
           end.

(** ** What the backend imports

    [./config], the environment, [jsonwebtoken], zod's e-mail test and the
    Prisma schema are outside the handlers' file; they are the fields of
    this class.  [jwt_sign userId iat secret] is
    [jwt.sign({ userId }, secret)] at time [iat], and
    [jwt_verify token secret] is the [userId] of the payload [jwt.verify]
    decodes, or [None] when it reports an error.  Signing is taken to
    succeed: the secret is a usable key. *)

Class Platform : Type := {
  JWT_SECRET : string;
  jwt_sign : string -> N -> string -> string;
  jwt_verify : string -> string -> option string;
  is_email : string -> bool;
  CLOUDFLARE_R2_BUCKET_NAME : option string;
  CLOUDFLARE_R2_PUBLIC_URL : option string;
  CLOUDFLARE_R2_ENDPOINT : option string;
  (** Modelled from the spec: the Prisma schema is missing from the
      sources.  The create endpoint takes a body without [isPublic] (its
      table lists [isPublic?]), so the column has a default; which one is
      left open. *)
  isPublic_column_default : bool
}.

Section Backend.
Context {P : Platform}.

Definition R2_BUCKET_NAME : string := or_else CLOUDFLARE_R2_BUCKET_NAME "".

Definition R2_PUBLIC_URL : string :=
  or_else CLOUDFLARE_R2_PUBLIC_URL "https://pub-3f302ea423334407b3183fceb59dece7.r2.dev".

(** ** Validation schemas *)

(** [zod.string()]: only a JSON string passes. *)
Definition zod_string (v : option json) : option string :=
  match v with
  | Some (JStr s) => Some s
  | _ => None
  end.

(** [zod.string().optional()]: a string, or [undefined]. *)
Definition zod_string_optional (v : option json) : option (option string) :=
  match v with
  | None => Some None
  | Some (JStr s) => Some (Some s)
  | _ => None
  end.

(** [zod.boolean().optional().default(d)]: [undefined] parses to [d]. *)
Definition zod_boolean_default (d : bool) (v : option json) : option bool :=
  match v with
  | None => Some d
  | Some (JBool b) => Some b
  | _ => None
  end.

(** [zod.object] takes a plain object only (not an array, not [null]) and
    ignores the properties it does not name. *)
Definition is_object (j : json) : bool :=
  match j with
  | JObj _ => true
  | _ => false
  end.

Record SigninData : Type := mkSignin { signin_email : string; signin_password : string }.

Record SignupData : Type := mkSignup {
  signup_name : string; signup_email : string; signup_password : string
}.

Record DemoData : Type := mkDemoData {
  data_title : string;
  data_description : string;
  data_type : string;
  data_content : string;
  data_thumbnail : option string;
  data_url : option string;
  data_isPublic : bool
}.

(** [min(3)] is a test on [name.length], in UTF-16 code units. *)
Definition signupSchema (j : json) : option SignupData :=
  if is_object j then
    match zod_string (get_field "name" j),
          zod_string (get_field "email" j),
          zod_string (get_field "password" j) with
    | Some name, Some email, Some password =>
        if (3 <=? js_length name)%nat && is_email email
        then Some (mkSignup name email password) else None
    | _, _, _ => None
    end
  else None.

Definition signinSchema (j : json) : option SigninData :=
  if is_object j then
    match zod_string (get_field "email" j), zod_string (get_field "password" j) with
    | Some email, Some password =>
        if is_email email then Some (mkSignin email password) else None
    | _, _ => None
    end
  else None.

(** [min(1)] on the title: a string has a code unit exactly when it has a
    byte. *)
Definition demoSchema (j : json) : option DemoData :=
  if is_object j then
    match zod_string (get_field "title" j),
          zod_string (get_field "description" j),
          zod_string (get_field "type" j),
          zod_string (get_field "content" j),
          zod_string_optional (get_field "thumbnail" j),
          zod_string_optional (get_field "url" j),
          zod_boolean_default false (get_field "isPublic" j) with
    | Some title, Some description, Some type, Some content,
      Some thumbnail, Some url, Some isPublic =>
        if (1 <=? String.length title)%nat
        then Some (mkDemoData title description type content thumbnail url isPublic)
        else None
    | _, _, _, _, _, _, _ => None
    end
  else None.

(** [schema.safeParse(x).success]. *)
Definition success {A} (parsed : option A) : bool :=
  match parsed with
  | Some _ => true
  | None => false
  end.

(** ** The Prisma client

    Every call is logged, fails with the fault's message while the
    database is failing, and otherwise runs on the tables.  An argument
    that is [undefined] is an argument left out; an argument of the wrong
    type, or a missing required one, makes the client throw. *)

Definition record_query (q : Query) (w : World) : World :=
  {| users := users w; demos := demos w; bucket := bucket w;
     prisma_log := prisma_log w ++ [q] |}.

Definition with_users (m : gmap string User.t) (w : World) : World :=
  {| users := m; demos := demos w; bucket := bucket w; prisma_log := prisma_log w |}.

Definition with_demos (m : gmap string Demo.t) (w : World) : World :=
  {| users := users w; demos := m; bucket := bucket w; prisma_log := prisma_log w |}.

Definition prisma {A} (amb : Ambient) (q : Query) (run : M A) : M A :=
  fun w =>
    match db_fault amb with
    | Some e => (record_query q w, Throw e)
    | None => run (record_query q w)
    end.

Definition invalid_invocation : string := "Invalid prisma invocation".

Definition rows {A} (m : gmap string A) : list A := (map_to_list m).*2.

Definition user_by_email (e : string) (m : gmap string User.t) : option User.t :=
  List.find (fun u => String.eqb (User.email u) e) (rows m).

(** [prisma.user.findUnique({ where: { email } })]. *)
Definition user_findUnique_email (amb : Ambient) (email : option json) : M (option User.t) :=
  prisma amb (UserFindUniqueByEmail email)
    (fun w => match email with
              | Some (JStr e) => (w, Ok (user_by_email e (users w)))
              | _ => (w, Throw invalid_invocation)
              end).

(** [prisma.user.findUnique({ where: { id } })]. *)
Definition user_findUnique_id (amb : Ambient) (id : string) : M (option User.t) :=
  prisma amb (UserFindUniqueById id) (fun w => (w, Ok (users w !! id))).

(** [prisma.user.create({ data })]: the three columns are required
    strings, [email] and [id] are unique. *)
Definition user_create (amb : Ambient) (data : UserInput.t) : M User.t :=
  prisma amb (UserCreate data)
    (fun w => match UserInput.email data, UserInput.password data, UserInput.name data with
              | Some (JStr e), Some (JStr p), Some (JStr n) =>
                  match user_by_email e (users w), users w !! new_id amb with
                  | None, None =>
                      let u := User.mk (new_id amb) e p n (now amb) in
                      (with_users (<[new_id amb := u]> (users w)) w, Ok u)
                  | _, _ => (w, Throw "Unique constraint failed")
                  end
              | _, _, _ => (w, Throw invalid_invocation)
              end).

(** How the client reads one argument of [data]: [None] when it rejects
    the value, [Some None] when the argument is left out. *)
Definition arg_string (v : option json) : option (option string) :=
  match v with
  | None => Some None
  | Some (JStr s) => Some (Some s)
  | _ => None
  end.

(** A nullable column also takes [null]. *)
Definition arg_nullable_string (v : option json) : option (option (option string)) :=
  match v with
  | None => Some None
  | Some JNull => Some (Some None)
  | Some (JStr s) => Some (Some (Some s))
  | _ => None
  end.

Definition arg_bool (v : option json) : option (option bool) :=
  match v with
  | None => Some None
  | Some (JBool b) => Some (Some b)
  | _ => None
  end.

(** [prisma.demo.create({ data: { ..., views, user: { connect: { id } } } })]:
    the four text columns are required, the two nullable ones default to
    [null], [isPublic] to the column default; the user to connect must
    exist. *)
Definition demo_create (amb : Ambient) (data : DemoInput.t) (views : Z) (connect : string)
  : M Demo.t :=
  prisma amb (DemoCreate data views connect)
    (fun w =>
       match arg_string (DemoInput.title data), arg_string (DemoInput.description data),
             arg_string (DemoInput.type data), arg_string (DemoInput.content data),
             arg_nullable_string (DemoInput.thumbnail data),
             arg_nullable_string (DemoInput.url data),
             arg_bool (DemoInput.isPublic data) with
       | Some (Some title), Some (Some description), Some (Some type), Some (Some content),
         Some thumbnail, Some url, Some isPublic =>
           match users w !! connect, demos w !! new_id amb with
           | Some _, None =>
               let d := Demo.mk (new_id amb) title description type content
                          (default None thumbnail) (default None url)
                          (default isPublic_column_default isPublic)
                          views connect (now amb) in
               (with_demos (<[new_id amb := d]> (demos w)) w, Ok d)
           | None, _ => (w, Throw "No User record was found for a connect")
           | _, Some _ => (w, Throw "Unique constraint failed")
           end
       | _, _, _, _, _, _, _ => (w, Throw invalid_invocation)
       end).

(** [prisma.demo.findFirst({ where: { id, user: { id: userId } } })]. *)
Definition demo_findFirst (amb : Ambient) (id userId : string) : M (option Demo.t) :=
  prisma amb (DemoFindFirst id userId)
    (fun w => match demos w !! id with
              | Some d => if String.eqb (Demo.userId d) userId then (w, Ok (Some d))
                          else (w, Ok None)
              | None => (w, Ok None)
              end).

(** [createdAt: 'desc']. *)
Definition newer_first (a b : Demo.t) : Prop := (Demo.createdAt b <= Demo.createdAt a)%N.

#[local] Instance newer_first_dec (a b : Demo.t) : Decision (newer_first a b) :=
  decide (Demo.createdAt b <= Demo.createdAt a)%N.

(** [prisma.demo.findMany({ where: { user: { id } }, orderBy: { createdAt: 'desc' } })]. *)
Definition demo_findMany (amb : Ambient) (userId : string) : M (list Demo.t) :=
  prisma amb (DemoFindMany userId)
    (fun w => (w, Ok (merge_sort newer_first
                        (List.filter (fun d => String.eqb (Demo.userId d) userId)
                                     (rows (demos w)))))).

Definition add_views (n : Z) (d : Demo.t) : Demo.t :=
  Demo.mk (Demo.id d) (Demo.title d) (Demo.description d) (Demo.type d) (Demo.content d)
          (Demo.thumbnail d) (Demo.url d) (Demo.isPublic d) (Demo.views d + n)
          (Demo.userId d) (Demo.createdAt d).

(** [prisma.demo.update({ where: { id }, data: { views: { increment: n } } })]. *)
Definition demo_increment_views (amb : Ambient) (id : string) (n : Z) : M Demo.t :=
  prisma amb (DemoIncrementViews id n)
    (fun w => match demos w !! id with
              | Some d => (with_demos (<[id := add_views n d]> (demos w)) w, Ok (add_views n d))
              | None => (w, Throw "Record to update not found")
              end).

(** [prisma.demo.update({ where: { id }, data })]: a column whose argument
    is left out keeps its value. *)
Definition demo_update (amb : Ambient) (id : string) (data : DemoInput.t) : M Demo.t :=
  prisma amb (DemoUpdate id data)
    (fun w =>
       match arg_string (DemoInput.title data), arg_string (DemoInput.description data),
             arg_string (DemoInput.type data), arg_string (DemoInput.content data),
             arg_nullable_string (DemoInput.thumbnail data),
             arg_nullable_string (DemoInput.url data),
             arg_bool (DemoInput.isPublic data) with
       | Some title, Some description, Some type, Some content,
         Some thumbnail, Some url, Some isPublic =>
           match demos w !! id with
           | Some d =>
               let d' := Demo.mk (Demo.id d)
                           (default (Demo.title d) title)
                           (default (Demo.description d) description)
                           (default (Demo.type d) type)
                           (default (Demo.content d) content)
                           (default (Demo.thumbnail d) thumbnail)
                           (default (Demo.url d) url)
                           (default (Demo.isPublic d) isPublic)
                           (Demo.views d) (Demo.userId d) (Demo.createdAt d) in
               (with_demos (<[id := d']> (demos w)) w, Ok d')
           | None => (w, Throw "Record to update not found")
           end
       | _, _, _, _, _, _, _ => (w, Throw invalid_invocation)
       end).

(** [prisma.demo.delete({ where: { id } })]. *)
Definition demo_delete (amb : Ambient) (id : string) : M Demo.t :=
  prisma amb (DemoDelete id)
    (fun w => match demos w !! id with
              | Some d => (with_demos (delete id (demos w)) w, Ok d)
              | None => (w, Throw "Record to delete does not exist")
              end).

(** [r2Client.send(new PutObjectCommand(params))]. *)
Definition r2_send (amb : Ambient) (params : R2Object) : M unit :=
  fun w => match r2_fault amb with
           | Some e => (w, Throw e)
           | None => ({| users := users w; demos := demos w;
                         bucket := <[(Bucket params, Key params) := params]> (bucket w);
                         prisma_log := prisma_log w |}, Ok tt)
           end.

(** ** Rows as JSON *)

Definition json_of_nullable (o : option string) : json :=
  match o with
  | Some s => JStr s
  | None => JNull
  end.

Definition demo_json (d : Demo.t) : json :=
  JObj [("id", JStr (Demo.id d)); ("title", JStr (Demo.title d));
        ("description", JStr (Demo.description d)); ("type", JStr (Demo.type d));
        ("content", JStr (Demo.content d));
        ("thumbnail", json_of_nullable (Demo.thumbnail d));
        ("url", json_of_nullable (Demo.url d));
        ("isPublic", JBool (Demo.isPublic d)); ("views", JNum (Demo.views d));
        ("userId", JStr (Demo.userId d)); ("createdAt", JDate (Demo.createdAt d))].

(** [select: { id: true, email: true, createdAt: true }]. *)
Definition me_json (u : User.t) : json :=
  JObj [("id", JStr (User.id u)); ("email", JStr (User.email u));
        ("createdAt", JDate (User.createdAt u))].

(** ** Middleware *)

(** [authenticateToken]: either it answers itself ([inl]), or it calls
    [next()] with [req.user] set ([inr]). *)
Definition authenticateToken (req : AuthRequest) : Response + AuthRequest :=
  match authorization req with
  | None => inl (fail 401 "Authentication required")
  | Some authHeader =>
      if negb (truthy authHeader) || negb (String.prefix "Bearer " authHeader)
      then inl (fail 401 "Authentication required")
      else
        match split " " authHeader !! 1%nat with
        | None => inl (fail 401 "Authentication required")
        | Some token =>
            if negb (truthy token) then inl (fail 401 "Authentication required")
            else
              match jwt_verify token JWT_SECRET with
              | None => inl (fail 403 "Invalid or expired token")
              | Some decoded => inr (set_user req (mkIdentity decoded))
              end
        end
  end.

(** ** Handlers *)

Definition internal_error (_ : string) : Response := fail 500 "Internal server error".

Definition authentication_required : Response := fail 401 "Authentication required".

(** [POST /api/auth/signup]. *)
Definition signup (amb : Ambient) (req : AuthRequest) : World -> World * Response :=
  answer
    (if negb (success (signupSchema (req_body req)))
     then ret (fail 411 "Invalid input data")
     else
       let name := get_field "name" (req_body req) in
       let email := get_field "email" (req_body req) in
       let password := get_field "password" (req_body req) in
       let confirmPassword := get_field "confirmPassword" (req_body req) in
       if negb (strict_eq password confirmPassword)
       then ret (fail 411 "Passwords do not match")
       else
         let! existingUser := user_findUnique_email amb email in
         match existingUser with
         | Some _ => ret (fail 411 "Email already taken")
         | None =>
             let! user := user_create amb (UserInput.mk email password name) in
             let token := jwt_sign (User.id user) (now amb) JWT_SECRET in
             ret (ok (JObj [("message", JStr "User created successfully");
                            ("token", JStr token)]))
         end)
    internal_error.

(** [POST /api/auth/login]; the inner [catch] rethrows what it caught. *)
Definition login (amb : Ambient) (req : AuthRequest) : World -> World * Response :=
  answer
    (match signinSchema (req_body req) with
     | None => ret (fail 400 "Invalid email or password format")
     | Some data =>
         try_catch
           (let! user := user_findUnique_email amb (Some (JStr (signin_email data))) in
            match user with
            | None => ret (fail 401 "Invalid email or password")
            | Some u =>
                if negb (String.eqb (User.password u) (signin_password data))
                then ret (fail 401 "Invalid email or password")
                else
                  let token := jwt_sign (User.id u) (now amb) JWT_SECRET in
                  ret (ok (JObj [("token", JStr token)]))
            end)
           (fun dbError => throw dbError)
     end)
    (fun error =>
       mkResponse 500
         (JObj [("message", JStr "Internal server error");
                ("details", JStr (or_else (Some error) "Unknown error occurred"))])).

(** [GET /api/auth/me]. *)
Definition me (amb : Ambient) (req : AuthRequest) : World -> World * Response :=
  answer
    (match user req with
     | None => ret authentication_required
     | Some who =>
         let! found := user_findUnique_id amb (userId who) in
         match found with
         | None => ret (fail 404 "User not found")
         | Some u => ret (ok (JObj [("user", me_json u)]))
         end
     end)
    internal_error.

(** [const { title, ..., isPublic } = req.body]. *)
Definition demo_input (b : json) : DemoInput.t :=
  DemoInput.mk (get_field "title" b) (get_field "description" b) (get_field "type" b)
               (get_field "content" b) (get_field "thumbnail" b) (get_field "url" b)
               (get_field "isPublic" b).

(** [POST /api/demos]. *)
Definition create_demo (amb : Ambient) (req : AuthRequest) : World -> World * Response :=
  answer
    (match user req with
     | None => ret authentication_required
     | Some who =>
         if negb (success (demoSchema (req_body req)))
         then ret (fail 400 "Invalid demo data")
         else
           let! demo := demo_create amb (demo_input (req_body req)) 0 (userId who) in
           ret (mkResponse 201 (demo_json demo))
     end)
    internal_error.

(** [GET /api/demos]. *)
Definition list_demos (amb : Ambient) (req : AuthRequest) : World -> World * Response :=
  answer
    (match user req with
     | None => ret authentication_required
     | Some who =>
         let! found := demo_findMany amb (userId who) in
         ret (ok (JArr (List.map demo_json found)))
     end)
    internal_error.

(** [GET /api/demos/:id]: answers with the row as it was found. *)
Definition get_demo (amb : Ambient) (req : AuthRequest) : World -> World * Response :=
  answer
    (match user req with
     | None => ret authentication_required
     | Some who =>
         let id := params_id req in
         let! demo := demo_findFirst amb id (userId who) in
         match demo with
         | None => ret (fail 404 "Demo not found")
         | Some d =>
             let! _ := demo_increment_views amb id 1 in
             ret (ok (demo_json d))
         end
     end)
    internal_error.

(** [PUT /api/demos/:id]. *)
Definition update_demo (amb : Ambient) (req : AuthRequest) : World -> World * Response :=
  answer
    (match user req with
     | None => ret authentication_required
     | Some who =>
         let id := params_id req in
         if negb (success (demoSchema (req_body req)))
         then ret (fail 400 "Invalid demo data")
         else
           let! demo := demo_findFirst amb id (userId who) in
           match demo with
           | None => ret (fail 404 "Demo not found")
           | Some _ =>
               let! updatedDemo := demo_update amb id (demo_input (req_body req)) in
               ret (ok (demo_json updatedDemo))
           end
     end)
    internal_error.

(** [DELETE /api/demos/:id]. *)
Definition delete_demo (amb : Ambient) (req : AuthRequest) : World -> World * Response :=
  answer
    (match user req with
     | None => ret authentication_required
     | Some who =>
         let id := params_id req in
         let! demo := demo_findFirst amb id (userId who) in
         match demo with
         | None => ret (fail 404 "Demo not found")
         | Some _ =>
             let! _ := demo_delete amb id in
             ret (ok (message_only "Demo deleted successfully"))
         end
     end)
    internal_error.

(** The storage key and the public URL of an upload. *)
Definition upload_key (amb : Ambient) (f : MulterFile) : string :=
  "uploads/" ++ decimal (now amb) ++ "-" ++ originalname f.

Definition image_url (key : string) : string := R2_PUBLIC_URL ++ "/" ++ key.

Definition upload_failed (message : string) : Response :=
  mkResponse 500
    (JObj (object_of
       [("message", Some (JStr "Upload to R2 failed"));
        ("error", Some (JStr message));
        ("details",
         Some (JObj (object_of
            [("bucket", Some (JStr R2_BUCKET_NAME));
             ("endpoint", JStr <$> CLOUDFLARE_R2_ENDPOINT)])))])).

(** [POST /api/upload-image]: the inner [catch] answers, which ends the
    handler; the inner [try] yields [None] to go on. *)
Definition upload_image (amb : Ambient) (req : AuthRequest) : World -> World * Response :=
  answer
    (match user req with
     | None => ret authentication_required
     | Some _ =>
         match file req with
         | None => ret (fail 400 "No image file provided")
         | Some f =>
             if negb (truthy R2_BUCKET_NAME)
             then ret (fail 500 "R2 bucket name not configured")
             else
               let key := upload_key amb f in
               let params := mkObject R2_BUCKET_NAME key (buffer f) (mimetype f) in
               let! answered :=
                 try_catch (let! _ := r2_send amb params in ret None)
                           (fun uploadErr => ret (Some (upload_failed uploadErr))) in
               match answered with
               | Some r => ret r
               | None => ret (ok (JObj [("url", JStr (image_url key))]))
               end
         end
     end)
    (fun error =>
       mkResponse 500 (JObj [("message", JStr "Internal server error");
                             ("error", JStr error)])).

(** [GET /api/test] and [GET /api/debug-env]. *)
Definition test (w : World) : World * Response :=
  (w, ok (message_only "API is working!")).

Definition debug_env (w : World) : World * Response :=
  (w, ok (JObj (object_of [("bucket", JStr <$> CLOUDFLARE_R2_BUCKET_NAME);
                           ("endpoint", JStr <$> CLOUDFLARE_R2_ENDPOINT);
                           ("publicUrl", JStr <$> CLOUDFLARE_R2_PUBLIC_URL)]))).

(** ** Routing *)

Inductive Route : Type :=
| PostSignup | PostLogin | GetMe
| PostDemos | GetDemos | GetDemo | PutDemo | DeleteDemo
| PostUploadImage | GetTest | GetDebugEnv.

(** The routes registered with [authenticateToken]. *)
Definition protected (r : Route) : bool :=
  match r with
  | PostSignup | PostLogin | GetTest | GetDebugEnv => false
  | _ => true
  end.

Definition handler (r : Route) (amb : Ambient) (req : AuthRequest) : World -> World * Response :=
  match r with
  | PostSignup => signup amb req
  | PostLogin => login amb req
  | GetMe => me amb req
  | PostDemos => create_demo amb req
  | GetDemos => list_demos amb req
  | GetDemo => get_demo amb req
  | PutDemo => update_demo amb req
  | DeleteDemo => delete_demo amb req
  | PostUploadImage => upload_image amb req
  | GetTest => test
  | GetDebugEnv => debug_env
  end.

(** One request through the middleware and the handler. *)
Definition serve (r : Route) (amb : Ambient) (req : AuthRequest) : World -> World * Response :=
  if protected r then
    match authenticateToken req with
    | inl answered => fun w => (w, answered)
    | inr req' => handler r amb req'
    end
  else handler r amb req.

(** ** Vocabulary of the properties *)

(** The middleware lets the request through as user [u]. *)
Definition authenticated_as (req : AuthRequest) (u : string) : Prop :=
  authenticateToken req = inr (set_user req (mkIdentity u)).

(** Some user row carries the e-mail address. *)
Definition registered (e : string) (w : World) : Prop :=
  exists i u, users w !! i = Some u /\ User.email u = e.

(** The row a create request inserts when its body parses to [data]:
    the payload's columns, [isPublic] from the payload if it has one and
    from the column default if not, no views, owned by [u]. *)
Definition created_row (amb : Ambient) (b : json) (data : DemoData) (u : string) : Demo.t :=
  Demo.mk (new_id amb) (data_title data) (data_description data)
          (data_type data) (data_content data) (data_thumbnail data) (data_url data)
          (match get_field "isPublic" b with
           | Some _ => data_isPublic data
           | None => isPublic_column_default
           end)
          0 u (now amb).




(** The world after [n] get-by-id requests in a row. *)
Fixpoint get_demo_times (n : nat) (amb : Ambient) (req : AuthRequest) (w : World) : World :=
  match n with
  | O => w
  | S k => get_demo_times k amb req (serve GetDemo amb req w).1
  end.

(** The two tables hold the same rows. *)
Definition same_tables (w w' : World) : Prop :=
  users w' = users w /\ demos w' = demos w.

End Backend.

(** ** What one request may change *)

Section Effects.
Context {P : Platform}.

(** [req.user] as the handler of route [r] finds it. *)
Definition caller (r : Route) (req : AuthRequest) : option string :=
  if protected r then
    match authenticateToken req with
    | inr req' => userId <$> user req'
    | inl _ => None
    end
  else userId <$> user req.

(** The change of the tables and of the bucket between [w] and [w']:
    nothing; one new user; one new demo of the caller; one row of the
    caller rewritten, with the same id, owner and creation time and with
    the same views or one more; one row of the caller deleted; the file
    [sent] with the request put in the bucket under its key.  Every change
    of a table needs the database to answer. *)
Inductive effect (r : Route) (amb : Ambient) (who : option string)
  (sent : option MulterFile) (w w' : World) : Prop :=
| effect_none :
    users w' = users w -> demos w' = demos w -> bucket w' = bucket w ->
    effect r amb who sent w w'
| effect_user (u : User.t) :
    r = PostSignup -> db_fault amb = None ->
    users w !! new_id amb = None -> ~ registered (User.email u) w ->
    User.id u = new_id amb -> User.createdAt u = now amb ->
    users w' = <[new_id amb := u]> (users w) ->
    demos w' = demos w -> bucket w' = bucket w ->
    effect r amb who sent w w'
| effect_demo (d : Demo.t) :
    r = PostDemos -> db_fault amb = None ->
    who = Some (Demo.userId d) -> is_Some (users w !! Demo.userId d) ->
    demos w !! new_id amb = None ->
    Demo.id d = new_id amb -> Demo.views d = 0%Z -> Demo.createdAt d = now amb ->
    demos w' = <[new_id amb := d]> (demos w) ->
    users w' = users w -> bucket w' = bucket w ->
    effect r amb who sent w w'
| effect_row (i : string) (d d' : Demo.t) :
    db_fault amb = None ->
    who = Some (Demo.userId d) -> demos w !! i = Some d ->
    Demo.id d' = Demo.id d -> Demo.userId d' = Demo.userId d ->
    Demo.createdAt d' = Demo.createdAt d ->
    (r = PutDemo /\ Demo.views d' = Demo.views d \/ r = GetDemo /\ d' = add_views 1 d) ->
    demos w' = <[i := d']> (demos w) ->
    users w' = users w -> bucket w' = bucket w ->
    effect r amb who sent w w'
| effect_delete (i : string) (d : Demo.t) :
    r = DeleteDemo -> db_fault amb = None ->
    who = Some (Demo.userId d) -> demos w !! i = Some d ->
    demos w' = delete i (demos w) ->
    users w' = users w -> bucket w' = bucket w ->
    effect r amb who sent w w'
| effect_object (f : MulterFile) :
    r = PostUploadImage -> r2_fault amb = None -> sent = Some f ->
    bucket w' =
      <[(R2_BUCKET_NAME, upload_key amb f) :=
          mkObject R2_BUCKET_NAME (upload_key amb f) (buffer f) (mimetype f)]> (bucket w) ->
    users w' = users w -> demos w' = demos w ->
    effect r amb who sent w w'.

(** The constraints of the database: a row is stored under its own id, no
    two users share an e-mail address, and the owner of every demo is a
    stored user. *)
Definition consistent (w : World) : Prop :=
  (forall i u, users w !! i = Some u -> User.id u = i) /\
  (forall i j u v, users w !! i = Some u -> users w !! j = Some v ->
                   User.email u = User.email v -> i = j) /\
  (forall i d, demos w !! i = Some d ->
               Demo.id d = i /\ is_Some (users w !! Demo.userId d)).

(** The Prisma calls of one request: the log grows by at most two. *)
Definition logged (w w' : World) : Prop :=
  exists qs, prisma_log w' = (prisma_log w ++ qs)%list /\ (length qs <= 2)%nat.

End Effects.

(** ** The login page

    [handleSubmit] of the login page, as the state it leaves once it has
    run to its end: the fields of the form, the error shown, the loading
    flag, the browser's [localStorage] and the routes pushed.  The
    intermediate renders and [console] are not modelled. *)

Module LoginPage.
Record t : Type := mk {
  email : string;
  password : string;
  error : json;          (* what [setError] was last given *)
  isLoading : bool
}.
End LoginPage.

Record Browser : Type := mkBrowser {
  localStorage : gmap string string;
  pushed : list string               (* router.push, oldest first *)
}.

(** How [axios.post] settles: fulfilled for a status from 200 to 299,
    rejected with [error.response] for another status, rejected without
    one when no response arrived. *)
Inductive AxiosPromise : Type :=
| Fulfilled (response : Response)
| Rejected (response : option Response).

Definition axios_settle (delivered : option Response) : AxiosPromise :=
  match delivered with
  | None => Rejected None
  | Some r =>
      if (200 <=? status r)%nat && (status r <? 300)%nat then Fulfilled r
      else Rejected (Some r)
  end.

(** JavaScript truthiness of a value of a parsed body. *)
Definition js_truthy (v : option json) : bool :=
  match v with
  | None | Some JNull => false
  | Some (JBool b) => b
  | Some (JNum n) => negb (n =? 0)%Z
  | Some (JStr s) => truthy s
  | Some _ => true
  end.

Section LoginPageSubmit.
(** [String.prototype.trim]. *)
Variable trim : string -> string.
(** The network: posting a body changes the state [S] of the other side
    and delivers a response, or none. *)
Context {S : Type}.
Variable post : json -> S -> S * option Response.

Definition show_error (page : LoginPage.t) (message : json) : LoginPage.t :=
  LoginPage.mk (LoginPage.email page) (LoginPage.password page) message false.

Definition login_failed : json := JStr "Login failed. Please try again.".

(** [error.response?.data?.message || "Login failed. Please try again."]. *)
Definition rejection_message (response : option Response) : json :=
  match response with
  | Some r =>
      match get_field "message" (body r) with
      | Some m => if js_truthy (Some m) then m else login_failed
      | None => login_failed
      end
  | None => login_failed
  end.

Definition handleSubmit (page : LoginPage.t) (b : Browser) (net : S)
  : LoginPage.t * Browser * S :=
  if negb (truthy (LoginPage.email page)) || negb (truthy (LoginPage.password page))
  then (show_error page (JStr "Email and password are required"), b, net)
  else
    let '(net', delivered) :=
      post (JObj [("email", JStr (LoginPage.email page));
                  ("password", JStr (LoginPage.password page))]) net in
    match axios_settle delivered with
    | Fulfilled response =>
        match body response with
        | JNull =>
            (* reading [token] of [null] throws; the error has no response *)
            (show_error page (rejection_message None), b, net')
        | data =>
            if js_truthy (get_field "token" data) then
              match get_field "token" data with
              | Some (JStr token) =>
                  (show_error page (JStr ""),
                   mkBrowser (<["token" := trim token]> (localStorage b))
                             (pushed b ++ ["/dashboard"]),
                   net')
              | _ =>
                  (* [trim] is not a function of this value *)
                  (show_error page (rejection_message None), b, net')
              end
            else (show_error page (JStr "Invalid response from server"), b, net')
        end
    | Rejected response => (show_error page (rejection_message response), b, net')
    end.

End LoginPageSubmit.

Section LoginPageOnline.
Context {P : Platform}.

(** The backend at the other end of [axios.post]. *)
Definition post_login (amb : Ambient) (b : json) (w : World) : World * option Response :=
  let '(w', r) := serve PostLogin amb (mkRequest None "" b None None) w in (w', Some r).

End LoginPageOnline.

(** ** Sample data

    A platform on which the handlers can be run: a token is the secret, a
    dot and the user identifier in clear, and an e-mail address is a
    string with an [@]. *)

Definition sample_verify (token secret : string) : option string :=
  if String.prefix (secret ++ ".") token
  then Some (String.substring (String.length secret + 1)
                              (String.length token - (String.length secret + 1)) token)
  else None.

Definition sample_platform : Platform := {|
  JWT_SECRET := "s3cret";
  jwt_sign := fun userId _ secret => secret ++ "." ++ userId;
  jwt_verify := sample_verify;
  is_email := has_char "@";
  CLOUDFLARE_R2_BUCKET_NAME := Some "arcade";
  CLOUDFLARE_R2_PUBLIC_URL := None;
  CLOUDFLARE_R2_ENDPOINT := Some "https://r2.example";
  isPublic_column_default := false
|}.

Definition ann : User.t := User.mk "u1" "a@x.com" "p" "Ann" 1000.
Definition bob : User.t := User.mk "u2" "b@x.com" "q" "Bob" 2000.

Definition ann_demo : Demo.t :=
  Demo.mk "d1" "Tour" "A product tour" "video" "frames"
          (Some "t.png") None true 7 "u1" 3000.

Definition sample_world : World :=
  {| users := <["u1" := ann]> (<["u2" := bob]> ∅);
     demos := <["d1" := ann_demo]> ∅;
     bucket := ∅;
     prisma_log := [] |}.

Definition calm : Ambient :=
  {| now := 5000; new_id := "d2"; db_fault := None; r2_fault := None |}.

Definition db_down : Ambient :=
  {| now := 5000; new_id := "d2"; db_fault := Some "Can't reach database server";
     r2_fault := None |}.

Definition r2_down : Ambient :=
  {| now := 5000; new_id := "d2"; db_fault := None; r2_fault := Some "socket hang up" |}.

(** A request with the given bearer header, [:id] and body. *)
Definition request (header : option string) (id : string) (b : json) : AuthRequest :=
  {| authorization := header; params_id := id; req_body := b; file := None; user := None |}.

Definition as_ann : option string := Some "Bearer s3cret.u1".
Definition as_bob : option string := Some "Bearer s3cret.u2".

Definition demo_body : json :=
  JObj [("title", JStr "Tour 2"); ("description", JStr "Shorter"); ("type", JStr "video");
        ("content", JStr "frames2")].

Definition credentials (email password : string) : json :=
  JObj [("email", JStr email); ("password", JStr password)].

Definition signup_body (name email password confirm : string) : json :=
  JObj [("name", JStr name); ("email", JStr email); ("password", JStr password);
        ("confirmPassword", JStr confirm)].

Definition cat_png : MulterFile :=
  {| originalname := "cat.png"; mimetype := "image/png";
     buffer := [Byte.x89; Byte.x50; Byte.x4e; Byte.x47] |}.

Definition upload_request (header : option string) (f : option MulterFile) : AuthRequest :=
  {| authorization := header; params_id := ""; req_body := JObj []; file := f; user := None |}.

(** The same platform with no bucket configured. *)
Definition unconfigured_platform : Platform := {|
  JWT_SECRET := "s3cret";
  jwt_sign := fun userId _ secret => secret ++ "." ++ userId;
  jwt_verify := sample_verify;
  is_email := has_char "@";
  CLOUDFLARE_R2_BUCKET_NAME := None;
  CLOUDFLARE_R2_PUBLIC_URL := None;
  CLOUDFLARE_R2_ENDPOINT := None;
  isPublic_column_default := false
|}.

(** [demo_body] as the demo schema parses it. *)
Definition demo_body_parsed : DemoData :=
  mkDemoData "Tour 2" "Shorter" "video" "frames2" None None false.

Definition carol : User.t := User.mk "u3" "c@x.com" "r" "Carol" 6000.

(** The surroundings of Carol's signup. *)
Definition signing_up : Ambient :=
  {| now := 6000; new_id := "u3"; db_fault := None; r2_fault := None |}.

Definition as_carol : option string := Some "Bearer s3cret.u3".

(** A second demo of Ann, older than the first. *)
Definition ann_old_demo : Demo.t :=
  Demo.mk "d0" "Intro" "First steps" "html" "page" None None false 0 "u1" 2500.

Definition bob_demo : Demo.t :=
  Demo.mk "d5" "Bob's" "Private" "html" "page" None None false 3 "u2" 2800.

Definition busy_world : World :=
  {| users := users sample_world;
     demos := <["d0" := ann_old_demo]> (<["d5" := bob_demo]> (demos sample_world));
     bucket := ∅;
     prisma_log := [] |}.


(** The login form filled in, and a browser that has stored nothing. *)
Definition filled_in (email password : string) : LoginPage.t :=
  LoginPage.mk email password (JStr "") true.

Definition new_browser : Browser := {| localStorage := ∅; pushed := [] |}.

(** A [trim] for tokens, which have nothing to trim. *)
Definition no_trim (s : string) : string := s.

(** ** Properties *)

Section Properties.
Context {P : Platform}.

Example split_bearer : split " " "Bearer abc def" = ["Bearer"; "abc"; "def"].
Proof. reflexivity. Qed.

Example split_trailing : split " " "Bearer " = ["Bearer"; ""].
Proof. reflexivity. Qed.

Example decimal_1700 : decimal 1700 = "1700".
Proof. reflexivity. Qed.

(** Two characters in three bytes are two code units: too short a name. *)
Example js_length_accent : js_length "éa" = 2%nat /\ String.length "éa" = 3%nat.
Proof. split; reflexivity. Qed.

Example js_length_ascii : js_length "Ann" = 3%nat.
Proof. reflexivity. Qed.

(** *** Strings *)

Lemma append_cons (c : ascii) (s t : string) : String c s ++ t = String c (s ++ t).
Proof. reflexivity. Qed.

Lemma append_snoc (cur : string) (c : ascii) (t : string) :
  (cur ++ String c "") ++ t = cur ++ String c t.
Proof.
  induction cur as [|a cur IH]; [reflexivity|].
  rewrite !append_cons. by rewrite IH.
Qed.

Lemma append_empty_r (s : string) : s ++ "" = s.
Proof.
  induction s as [|a s IH]; [reflexivity|].
  rewrite append_cons. by rewrite IH.
Qed.

(** A piece without the separator is read in one go. *)
Lemma split_go_word (t : string) :
  forall cur rest, has_char " " t = false ->
    split_go " " cur (t ++ rest) = split_go " " (cur ++ t) rest.
Proof.
  induction t as [|c t IH]; intros cur rest Hc.
  - by rewrite append_empty_r.
  - cbn [has_char] in Hc. apply orb_false_iff in Hc as [Hc Ht].
    rewrite append_cons. cbn [split_go]. rewrite Hc.
    rewrite IH by done. by rewrite append_snoc.
Qed.

(** The second piece of a bearer header is the token. *)
Lemma bearer_token (t rest : string) :
  has_char " " t = false ->
  (rest = "" \/ exists rest', rest = String " " rest') ->
  split " " ("Bearer " ++ t ++ rest) !! 1%nat = Some t.
Proof.
  intros Ht Hrest. unfold split.
  change ("Bearer " ++ t ++ rest)
    with (String "B" (String "e" (String "a" (String "r" (String "e" (String "r"
           (String " " (t ++ rest)))))))).
  cbn [split_go Ascii.eqb Bool.eqb].
  rewrite split_go_word by done.
  change ("" ++ t) with t.
  destruct Hrest as [-> | [rest' ->]]; reflexivity.
Qed.

(** Whatever follows the scheme is a piece without a space and a rest
    that is empty or starts with one. *)
Lemma token_and_rest (x : string) :
  exists t rest, x = t ++ rest /\ has_char " " t = false /\
                 (rest = "" \/ exists rest', rest = String " " rest').
Proof.
  induction x as [|c x (t & rest & -> & Ht & Hrest)].
  - exists "", "". by eauto.
  - destruct (Ascii.eqb c " ") eqn:Hc.
    + apply Ascii.eqb_eq in Hc as ->. exists "", (String " " (t ++ rest)). by eauto.
    + exists (String c t), rest. split; [done|]. split; [|done].
      cbn [has_char]. by rewrite Hc, Ht.
Qed.

Lemma bearer_prefix (x : string) : String.prefix "Bearer " ("Bearer " ++ x) = true.
Proof. by destruct x. Qed.

Lemma truthy_nonempty (s : string) : s <> "" -> truthy s = true.
Proof. intros H. unfold truthy. by apply negb_true_iff, String.eqb_neq. Qed.

(** *** The Prisma client *)

Lemma prisma_up {A} (amb : Ambient) (q : Query) (run : M A) (w : World) :
  db_fault amb = None -> prisma amb q run w = run (record_query q w).
Proof. intros H. unfold prisma. by rewrite H. Qed.

Lemma prisma_down {A} (amb : Ambient) (q : Query) (run : M A) (w : World) (e : string) :
  db_fault amb = Some e -> prisma amb q run w = (record_query q w, Throw e).
Proof. intros H. unfold prisma. by rewrite H. Qed.

(** On a reachable database [findFirst] finds the row with that [id] if
    its owner is the one asked for. *)
Lemma demo_findFirst_up (amb : Ambient) (id u : string) (w : World) :
  db_fault amb = None ->
  demo_findFirst amb id u w =
    (record_query (DemoFindFirst id u) w,
     Ok (match demos w !! id with
         | Some d => if String.eqb (Demo.userId d) u then Some d else None
         | None => None
         end)).
Proof.
  intros H. unfold demo_findFirst. rewrite prisma_up by done. cbn.
  destruct (demos w !! id) as [d|]; [|done]. by destruct (String.eqb _ _).
Qed.

Lemma authenticated_serve (r : Route) (amb : Ambient) (req : AuthRequest) (u : string) :
  protected r = true -> authenticated_as req u ->
  serve r amb req = handler r amb (set_user req (mkIdentity u)).
Proof. intros Hr Hu. unfold serve. by rewrite Hr, Hu. Qed.

Lemma bearer_truthy (x : string) : truthy ("Bearer " ++ x) = true.
Proof. reflexivity. Qed.

(** *** The middleware *)

(** C7. On a protected route, a request without an Authorization header,
    or whose header does not start with the bearer scheme or carries an
    empty token, is answered 401 with the world (tables, bucket and log of
    Prisma calls) untouched, so without any store access; a token that
    fails verification is answered 403, again with the world untouched;
    a token that verifies makes the middleware hand the handler the same
    request with [user] set to the decoded identifier and nothing else
    changed, in the same world. *)
Theorem authenticateToken_contract (r : Route) (amb : Ambient) (req : AuthRequest) (w : World) :
  protected r = true ->
  ((authorization req = None \/
    exists h, authorization req = Some h /\ String.prefix "Bearer " h = false) ->
   serve r amb req w = (w, fail 401 "Authentication required")) /\
  (forall t rest,
     authorization req = Some ("Bearer " ++ t ++ rest) ->
     has_char " " t = false ->
     (rest = "" \/ exists rest', rest = String " " rest') ->
     (t = "" -> serve r amb req w = (w, fail 401 "Authentication required")) /\
     (t <> "" -> jwt_verify t JWT_SECRET = None ->
      serve r amb req w = (w, fail 403 "Invalid or expired token")) /\
     (forall uid, t <> "" -> jwt_verify t JWT_SECRET = Some uid ->
        exists req',
          authenticateToken req = inr req' /\
          user req' = Some (mkIdentity uid) /\
          authorization req' = authorization req /\
          params_id req' = params_id req /\
          req_body req' = req_body req /\
          file req' = file req /\
          serve r amb req w = handler r amb req' w)).
Proof.
  intros Hr. unfold serve. rewrite Hr. split.
  - intros [Hnone | (h & Hh & Hpre)]; unfold authenticateToken.
    + by rewrite Hnone.
    + rewrite Hh, Hpre. by rewrite orb_true_r.
  - intros t rest Hh Ht Hrest. unfold authenticateToken. rewrite Hh.
    rewrite bearer_truthy, bearer_prefix. cbn [negb orb].
    rewrite bearer_token by done.
    split; [|split].
    + by intros ->.
    + intros Hne Hv. by rewrite (truthy_nonempty t Hne), Hv.
    + intros uid Hne Hv. rewrite (truthy_nonempty t Hne), Hv. cbn [negb].
      by exists (set_user req (mkIdentity uid)).
Qed.

(** *** Ownership *)

(** What a handler does once the lookup came back empty. *)
Lemma stranger_lookup (amb : Ambient) (w : World) (id u1 u2 : string) (D : Demo.t) :
  demos w !! id = Some D -> Demo.userId D = u1 -> u2 <> u1 -> db_fault amb = None ->
  demo_findFirst amb id u2 w = (record_query (DemoFindFirst id u2) w, Ok None).
Proof.
  intros HD Hown Hne Hup. rewrite demo_findFirst_up by done. rewrite HD, Hown.
  by rewrite (proj2 (String.eqb_neq u1 u2)).
Qed.

(** C1, amended. A demo [D] of user [u1] and a request authenticated as
    another user [u2] against its id: get-by-id, update and delete leave
    both tables as they were (so every stored field of [D], its view
    counter included), and while the database answers, get-by-id and
    delete return 404 and update returns 404 when its payload passes the
    demo schema and 400 when it does not. *)
Theorem stranger_cannot_touch_demo
  (amb : Ambient) (req : AuthRequest) (w : World) (id u1 u2 : string) (D : Demo.t) :
  demos w !! id = Some D -> Demo.userId D = u1 -> u2 <> u1 ->
  authenticated_as req u2 -> params_id req = id ->
  (same_tables w (serve GetDemo amb req w).1 /\
   (db_fault amb = None -> (serve GetDemo amb req w).2 = fail 404 "Demo not found")) /\
  (same_tables w (serve PutDemo amb req w).1 /\
   (db_fault amb = None ->
    (serve PutDemo amb req w).2 =
      if success (demoSchema (req_body req)) then fail 404 "Demo not found"
      else fail 400 "Invalid demo data")) /\
  (same_tables w (serve DeleteDemo amb req w).1 /\
   (db_fault amb = None -> (serve DeleteDemo amb req w).2 = fail 404 "Demo not found")).
Proof.
  intros HD Hown Hne Hauth Hid.
  rewrite !(authenticated_serve _ amb req u2) by done.
  cbn [handler]. unfold get_demo, update_demo, delete_demo, answer, bind.
  cbn [user set_user params_id req_body userId]. rewrite Hid.
  destruct (success (demoSchema (req_body req))); cbn [negb];
    destruct (db_fault amb) as [e|] eqn:Hf.
  all: try (unfold demo_findFirst; rewrite !(prisma_down _ _ _ _ e) by done).
  all: try rewrite !(stranger_lookup amb w id u1 u2 D) by done.
  all: cbn; by repeat split.
Qed.

(** *** Views *)

(** What get-by-id does for the owner of the row. *)
Lemma get_demo_owner_up
  (amb : Ambient) (req : AuthRequest) (w : World) (u : string) (D : Demo.t) :
  authenticated_as req u -> db_fault amb = None ->
  demos w !! params_id req = Some D -> Demo.userId D = u ->
  serve GetDemo amb req w =
    (with_demos (<[params_id req := add_views 1 D]> (demos w))
       (record_query (DemoIncrementViews (params_id req) 1)
          (record_query (DemoFindFirst (params_id req) u) w)),
     ok (demo_json D)).
Proof.
  intros Hauth Hup HD Hown.
  rewrite (authenticated_serve _ amb req u) by done.
  cbn [handler]. unfold get_demo, answer, bind.
  cbn [user set_user params_id userId].
  rewrite demo_findFirst_up by done. rewrite HD, Hown, String.eqb_refl.
  unfold demo_increment_views. rewrite prisma_up by done.
  cbn. rewrite HD. by cbn.
Qed.

Lemma add_views_add (n m : Z) (d : Demo.t) :
  add_views n (add_views m d) = add_views (m + n) d.
Proof. unfold add_views. cbn. f_equal. lia. Qed.

(** Repeated get-by-id by the owner: after [n] calls the stored row is
    [D] with [n] more views. *)
Lemma get_demo_times_views (amb : Ambient) (req : AuthRequest) (u : string) (n : nat) :
  authenticated_as req u -> db_fault amb = None ->
  forall (w : World) (D : Demo.t),
    demos w !! params_id req = Some D -> Demo.userId D = u ->
    demos (get_demo_times n amb req w) !! params_id req = Some (add_views (Z.of_nat n) D).
Proof.
  intros Hauth Hup. induction n as [|n IH]; intros w D HD Hown.
  - cbn. rewrite HD. f_equal. destruct D. unfold add_views. cbn. f_equal. lia.
  - cbn [get_demo_times]. rewrite (get_demo_owner_up amb req w u D) by done.
    cbn [fst]. rewrite (IH _ (add_views 1 D)).
    + rewrite add_views_add. do 2 f_equal. lia.
    + cbn. by rewrite lookup_insert_eq.
    + done.
Qed.

(** C2. While the database answers, get-by-id by the owner of [D] returns
    [D] as stored before the call (its view counter not yet incremented)
    and replaces the stored row by [D] with its view counter one higher,
    every other row staying as it was; when no row with that id belongs to
    the caller it returns 404 and both tables stay as they were. *)
Theorem get_demo_counts_one_view (amb : Ambient) (req : AuthRequest) (w : World) (u : string) :
  authenticated_as req u -> db_fault amb = None ->
  (forall D, demos w !! params_id req = Some D -> Demo.userId D = u ->
     (serve GetDemo amb req w).2 = ok (demo_json D) /\
     demos (serve GetDemo amb req w).1 = <[params_id req := add_views 1 D]> (demos w) /\
     Demo.views (add_views 1 D) = (Demo.views D + 1)%Z /\
     users (serve GetDemo amb req w).1 = users w) /\
  ((forall D, demos w !! params_id req = Some D -> Demo.userId D <> u) ->
     (serve GetDemo amb req w).2 = fail 404 "Demo not found" /\
     same_tables w (serve GetDemo amb req w).1).
Proof.
  intros Hauth Hup. split.
  - intros D HD Hown. by rewrite (get_demo_owner_up amb req w u D).
  - intros Hnone. rewrite !(authenticated_serve _ amb req u) by done.
    cbn [handler]. unfold get_demo, answer, bind.
    cbn [user set_user params_id userId].
    rewrite demo_findFirst_up by done.
    destruct (demos w !! params_id req) as [D|] eqn:HD.
    + rewrite (proj2 (String.eqb_neq _ _) (Hnone D eq_refl)). by cbn.
    + by cbn.
Qed.

(** *** Accounts *)

Lemma zod_string_Some (v : option json) (x : string) :
  zod_string v = Some x -> v = Some (JStr x).
Proof. destruct v as [[]|]; cbn; congruence. Qed.

(** A registered address is one [findUnique] finds a row for. *)
Lemma registered_found (e : string) (w : World) :
  registered e w -> exists u, user_by_email e (users w) = Some u.
Proof.
  intros (i & u & Hi & He). unfold user_by_email.
  destruct (List.find _ _) as [u'|] eqn:Hfind; [by exists u'|].
  assert (Hin : List.In u (rows (users w))).
  { apply list_elem_of_In. unfold rows. apply list_elem_of_fmap.
    exists (i, u). split; [done|]. by apply elem_of_map_to_list. }
  pose proof (List.find_none _ _ Hfind u Hin) as Hno. cbn in Hno.
  apply String.eqb_neq in Hno. by destruct Hno.
Qed.

Lemma found_registered (e : string) (w : World) (u : User.t) :
  user_by_email e (users w) = Some u -> registered e w /\ User.email u = e.
Proof.
  unfold user_by_email. intros Hfind. apply List.find_some in Hfind as [Hin He].
  apply String.eqb_eq in He. split; [|done].
  apply list_elem_of_In in Hin. unfold rows in Hin.
  apply list_elem_of_fmap in Hin as ([i u'] & -> & Hin).
  apply elem_of_map_to_list in Hin. by exists i, u'.
Qed.

Lemma user_findUnique_email_up (amb : Ambient) (e : string) (w : World) :
  db_fault amb = None ->
  user_findUnique_email amb (Some (JStr e)) w =
    (record_query (UserFindUniqueByEmail (Some (JStr e))) w, Ok (user_by_email e (users w))).
Proof. intros H. unfold user_findUnique_email. by rewrite prisma_up. Qed.

(** C3. A login whose body passes the schema, while the database
    answers: when the address finds a user whose stored password equals
    the one sent, the answer is a token signed for that user's id; when
    the address finds nobody, and when it finds a user with another
    password, the answer is the same 401 response, so a rejected login
    with an unknown address and one with a wrong password, in any two
    runs, get identical responses. *)
Theorem login_outcomes (amb : Ambient) (req : AuthRequest) (w : World) (data : SigninData) :
  signinSchema (req_body req) = Some data -> db_fault amb = None ->
  (forall u, user_by_email (signin_email data) (users w) = Some u ->
             User.password u = signin_password data ->
     (serve PostLogin amb req w).2 =
       ok (JObj [("token", JStr (jwt_sign (User.id u) (now amb) JWT_SECRET))])) /\
  (user_by_email (signin_email data) (users w) = None ->
     (serve PostLogin amb req w).2 = fail 401 "Invalid email or password") /\
  (forall u, user_by_email (signin_email data) (users w) = Some u ->
             User.password u <> signin_password data ->
     (serve PostLogin amb req w).2 = fail 401 "Invalid email or password") /\
  (forall amb' req' w' data' u',
     signinSchema (req_body req') = Some data' -> db_fault amb' = None ->
     user_by_email (signin_email data) (users w) = None ->
     user_by_email (signin_email data') (users w') = Some u' ->
     User.password u' <> signin_password data' ->
     (serve PostLogin amb req w).2 = (serve PostLogin amb' req' w').2).
Proof.
  intros Hparse Hup.
  assert (Hrun : forall amb req w data,
            signinSchema (req_body req) = Some data -> db_fault amb = None ->
            (serve PostLogin amb req w).2 =
              match user_by_email (signin_email data) (users w) with
              | None => fail 401 "Invalid email or password"
              | Some u =>
                  if negb (String.eqb (User.password u) (signin_password data))
                  then fail 401 "Invalid email or password"
                  else ok (JObj [("token", JStr (jwt_sign (User.id u) (now amb) JWT_SECRET))])
              end).
  { clear. intros amb req w data Hparse Hup.
    unfold serve. cbn [protected handler]. unfold login, answer, try_catch, bind.
    rewrite Hparse, user_findUnique_email_up by done.
    destruct (user_by_email _ _) as [u|]; [|done].
    by destruct (negb _). }
  repeat split.
  - intros u Hu Hpw. rewrite (Hrun _ _ _ data), Hu, Hpw by done.
    by rewrite String.eqb_refl.
  - intros Hu. by rewrite (Hrun _ _ _ data), Hu by done.
  - intros u Hu Hpw. rewrite (Hrun _ _ _ data), Hu by done.
    by rewrite (proj2 (String.eqb_neq _ _) Hpw).
  - intros amb' req' w' data' u' Hparse' Hup' Hnone Hu' Hpw'.
    rewrite (Hrun _ _ _ data), (Hrun _ _ _ data'), Hnone, Hu' by done.
    by rewrite (proj2 (String.eqb_neq _ _) Hpw').
Qed.

Lemma signupSchema_fields (b : json) (data : SignupData) :
  signupSchema b = Some data ->
  get_field "name" b = Some (JStr (signup_name data)) /\
  get_field "email" b = Some (JStr (signup_email data)) /\
  get_field "password" b = Some (JStr (signup_password data)).
Proof.
  unfold signupSchema. destruct (is_object b); [|done].
  destruct (zod_string (get_field "name" b)) as [n|] eqn:Hn; [|done].
  destruct (zod_string (get_field "email" b)) as [e|] eqn:He; [|done].
  destruct (zod_string (get_field "password" b)) as [p|] eqn:Hp; [|done].
  destruct (_ && _); [|done]. intros [= <-]. cbn.
  by rewrite (zod_string_Some _ _ Hn), (zod_string_Some _ _ He), (zod_string_Some _ _ Hp).
Qed.

(** C6, amended. A signup whose body passes the signup schema and whose
    password equals its confirmation, for an address that is already
    registered, while the database answers: the answer is 411 with the
    message of the duplicate address, and both tables stay as they
    were. *)
Theorem signup_duplicate_email (amb : Ambient) (req : AuthRequest) (w : World) (data : SignupData) :
  signupSchema (req_body req) = Some data ->
  strict_eq (get_field "password" (req_body req))
            (get_field "confirmPassword" (req_body req)) = true ->
  registered (signup_email data) w ->
  db_fault amb = None ->
  (serve PostSignup amb req w).2 = fail 411 "Email already taken" /\
  same_tables w (serve PostSignup amb req w).1.
Proof.
  intros Hparse Hconfirm Hreg Hup.
  destruct (registered_found _ _ Hreg) as [u Hu].
  destruct (signupSchema_fields _ _ Hparse) as (_ & He & _).
  unfold serve. cbn [protected handler]. unfold signup, answer, bind.
  rewrite Hparse, Hconfirm. cbn [success negb].
  rewrite He, user_findUnique_email_up by done. rewrite Hu. by cbn.
Qed.

(** *** Demos *)

Lemma demoSchema_fields (b : json) (data : DemoData) :
  demoSchema b = Some data ->
  get_field "title" b = Some (JStr (data_title data)) /\
  get_field "description" b = Some (JStr (data_description data)) /\
  get_field "type" b = Some (JStr (data_type data)) /\
  get_field "content" b = Some (JStr (data_content data)) /\
  zod_string_optional (get_field "thumbnail" b) = Some (data_thumbnail data) /\
  zod_string_optional (get_field "url" b) = Some (data_url data) /\
  zod_boolean_default false (get_field "isPublic" b) = Some (data_isPublic data).
Proof.
  unfold demoSchema. destruct (is_object b); [|done].
  destruct (zod_string (get_field "title" b)) as [t|] eqn:Ht; [|done].
  destruct (zod_string (get_field "description" b)) as [d|] eqn:Hd; [|done].
  destruct (zod_string (get_field "type" b)) as [ty|] eqn:Hty; [|done].
  destruct (zod_string (get_field "content" b)) as [c|] eqn:Hc; [|done].
  destruct (zod_string_optional (get_field "thumbnail" b)) as [th|]; [|done].
  destruct (zod_string_optional (get_field "url" b)) as [u|]; [|done].
  destruct (zod_boolean_default false (get_field "isPublic" b)) as [ip|]; [|done].
  destruct (_ <=? _)%nat; [|done]. intros [= <-]. cbn.
  by rewrite (zod_string_Some _ _ Ht), (zod_string_Some _ _ Hd),
             (zod_string_Some _ _ Hty), (zod_string_Some _ _ Hc).
Qed.

(** What the Prisma client reads from a body that passed the demo schema. *)
Lemma demo_input_args (b : json) (data : DemoData) :
  demoSchema b = Some data ->
  arg_string (DemoInput.title (demo_input b)) = Some (Some (data_title data)) /\
  arg_string (DemoInput.description (demo_input b)) = Some (Some (data_description data)) /\
  arg_string (DemoInput.type (demo_input b)) = Some (Some (data_type data)) /\
  arg_string (DemoInput.content (demo_input b)) = Some (Some (data_content data)) /\
  arg_nullable_string (DemoInput.thumbnail (demo_input b)) =
    Some (match get_field "thumbnail" b with
          | Some _ => Some (data_thumbnail data)
          | None => None
          end) /\
  arg_nullable_string (DemoInput.url (demo_input b)) =
    Some (match get_field "url" b with
          | Some _ => Some (data_url data)
          | None => None
          end) /\
  arg_bool (DemoInput.isPublic (demo_input b)) =
    Some (match get_field "isPublic" b with
          | Some _ => Some (data_isPublic data)
          | None => None
          end).
Proof.
  intros Hparse.
  destruct (demoSchema_fields _ _ Hparse) as (Ht & Hd & Hty & Hc & Hth & Hu & Hip).
  cbn [demo_input DemoInput.title DemoInput.description DemoInput.type DemoInput.content
       DemoInput.thumbnail DemoInput.url DemoInput.isPublic].
  rewrite Ht, Hd, Hty, Hc. repeat split.
  - destruct (get_field "thumbnail" b) as [[]|]; cbn in *; congruence.
  - destruct (get_field "url" b) as [[]|]; cbn in *; congruence.
  - destruct (get_field "isPublic" b) as [[]|]; cbn in *; congruence.
Qed.

(** C4, amended. An update by the owner of [D] whose payload passes the
    demo schema, while the database answers, stores and returns a row
    whose title, description, type and content are the payload's, whose
    thumbnail, url and isPublic are the payload's when the payload has
    them, and whose thumbnail and url are those of [D] when the payload
    leaves them out; id, view counter, owner and creation time are those
    of [D]. *)
Theorem update_demo_overwrites
  (amb : Ambient) (req : AuthRequest) (w : World) (u : string) (D : Demo.t) (data : DemoData) :
  authenticated_as req u -> db_fault amb = None ->
  demoSchema (req_body req) = Some data ->
  demos w !! params_id req = Some D -> Demo.userId D = u ->
  exists D',
    (serve PutDemo amb req w).2 = ok (demo_json D') /\
    demos (serve PutDemo amb req w).1 = <[params_id req := D']> (demos w) /\
    Demo.title D' = data_title data /\
    Demo.description D' = data_description data /\
    Demo.type D' = data_type data /\
    Demo.content D' = data_content data /\
    Demo.thumbnail D' = match get_field "thumbnail" (req_body req) with
                        | Some _ => data_thumbnail data
                        | None => Demo.thumbnail D
                        end /\
    Demo.url D' = match get_field "url" (req_body req) with
                  | Some _ => data_url data
                  | None => Demo.url D
                  end /\
    (get_field "isPublic" (req_body req) <> None -> Demo.isPublic D' = data_isPublic data) /\
    Demo.id D' = Demo.id D /\ Demo.views D' = Demo.views D /\
    Demo.userId D' = Demo.userId D /\ Demo.createdAt D' = Demo.createdAt D.
Proof.
  intros Hauth Hup Hparse HD Hown.
  destruct (demo_input_args _ _ Hparse) as (Ht & Hd & Hty & Hc & Hth & Hu & Hip).
  rewrite !(authenticated_serve _ amb req u) by done.
  cbn [handler]. unfold update_demo, answer, bind.
  cbn [user set_user params_id req_body userId].
  rewrite Hparse. cbn [success negb].
  rewrite demo_findFirst_up by done. rewrite HD, Hown, String.eqb_refl.
  unfold demo_update. rewrite prisma_up by done.
  rewrite Ht, Hd, Hty, Hc, Hth, Hu, Hip. cbn. rewrite HD. cbn.
  eexists. split; [reflexivity|]. split; [reflexivity|]. cbn.
  repeat split; try done.
  - by destruct (get_field "thumbnail" (req_body req)).
  - by destruct (get_field "url" (req_body req)).
  - by destruct (get_field "isPublic" (req_body req)).
Qed.

Lemma create_demo_up
  (amb : Ambient) (req : AuthRequest) (w : World) (u : string) (data : DemoData) :
  authenticated_as req u -> demoSchema (req_body req) = Some data ->
  db_fault amb = None -> is_Some (users w !! u) -> demos w !! new_id amb = None ->
  serve PostDemos amb req w =
    (with_demos (<[new_id amb := created_row amb (req_body req) data u]> (demos w))
                (record_query (DemoCreate (demo_input (req_body req)) 0 u) w),
     mkResponse 201 (demo_json (created_row amb (req_body req) data u))).
Proof.
  intros Hauth Hparse Hup [who Hwho] Hfresh.
  destruct (demo_input_args _ _ Hparse) as (Ht & Hd & Hty & Hc & Hth & Hu & Hip).
  destruct (demoSchema_fields _ _ Hparse) as (_ & _ & _ & _ & Zth & Zu & _).
  rewrite !(authenticated_serve _ amb req u) by done.
  cbn [handler]. unfold create_demo, answer, bind.
  cbn [user set_user params_id req_body userId].
  rewrite Hparse. cbn [success negb].
  unfold demo_create. rewrite prisma_up by done.
  rewrite Ht, Hd, Hty, Hc, Hth, Hu, Hip. cbn. rewrite Hwho, Hfresh. cbn.
  assert (HD : Demo.mk (new_id amb) (data_title data) (data_description data)
                 (data_type data) (data_content data)
                 (default None match get_field "thumbnail" (req_body req) with
                               | Some _ => Some (data_thumbnail data)
                               | None => None
                               end)
                 (default None match get_field "url" (req_body req) with
                               | Some _ => Some (data_url data)
                               | None => None
                               end)
                 (default isPublic_column_default
                    match get_field "isPublic" (req_body req) with
                    | Some _ => Some (data_isPublic data)
                    | None => None
                    end)
                 0 u (now amb) = created_row amb (req_body req) data u).
  { unfold created_row. f_equal.
    - destruct (get_field "thumbnail" (req_body req)) as [[]|]; cbn in *; congruence.
    - destruct (get_field "url" (req_body req)) as [[]|]; cbn in *; congruence.
    - by destruct (get_field "isPublic" (req_body req)). }
  by rewrite HD.
Qed.

(** The insert is logged whether or not it goes through. *)
Lemma demo_create_logged
  (amb : Ambient) (data : DemoInput.t) (views : Z) (connect : string) (w : World) :
  prisma_log (demo_create amb data views connect w).1 =
    (prisma_log w ++ [DemoCreate data views connect])%list.
Proof.
  unfold demo_create, prisma. destruct (db_fault amb); [done|].
  repeat match goal with
         | |- context [match ?x with _ => _ end] => destruct x
         end; done.
Qed.

(** C9. A create request authenticated as an existing user, with a
    payload that passes the demo schema, while the database answers and
    draws an unused id: the answer is 201 with the new row; the demo table
    is the old one plus that one row, which is owned by the caller and has
    view counter 0; the user table is untouched and the handler made one
    Prisma call, the insert. *)
Theorem create_demo_inserts_one_row
  (amb : Ambient) (req : AuthRequest) (w : World) (u : string) (data : DemoData) :
  authenticated_as req u -> demoSchema (req_body req) = Some data ->
  db_fault amb = None -> is_Some (users w !! u) -> demos w !! new_id amb = None ->
  let D := created_row amb (req_body req) data u in
  (serve PostDemos amb req w).2 = mkResponse 201 (demo_json D) /\
  demos (serve PostDemos amb req w).1 = <[new_id amb := D]> (demos w) /\
  size (demos (serve PostDemos amb req w).1) = S (size (demos w)) /\
  Demo.userId D = u /\ Demo.views D = 0%Z /\
  users (serve PostDemos amb req w).1 = users w /\
  prisma_log (serve PostDemos amb req w).1 =
    (prisma_log w ++ [DemoCreate (demo_input (req_body req)) 0 u])%list.
Proof.
  intros Hauth Hparse Hup Hwho Hfresh D.
  rewrite (create_demo_up amb req w u data) by done.
  cbn. repeat split; try done.
  by apply map_size_insert_None.
Qed.

(** C10. A create request whose payload passes the demo schema and has no
    [isPublic]: the schema parses it to [false], but the [isPublic] the
    handler passes to the insert is [undefined], read from the raw body;
    the row then inserted carries the column default of the database, not
    the value the schema produced. *)
Theorem create_demo_ignores_schema_default
  (amb : Ambient) (req : AuthRequest) (w : World) (u : string) (data : DemoData) :
  authenticated_as req u -> demoSchema (req_body req) = Some data ->
  get_field "isPublic" (req_body req) = None ->
  data_isPublic data = false /\
  (exists input,
     prisma_log (serve PostDemos amb req w).1 = (prisma_log w ++ [DemoCreate input 0 u])%list /\
     DemoInput.isPublic input = None) /\
  (db_fault amb = None -> is_Some (users w !! u) -> demos w !! new_id amb = None ->
   exists D, demos (serve PostDemos amb req w).1 !! new_id amb = Some D /\
             Demo.isPublic D = isPublic_column_default).
Proof.
  intros Hauth Hparse Hno.
  destruct (demoSchema_fields _ _ Hparse) as (_ & _ & _ & _ & _ & _ & Zip).
  rewrite Hno in Zip. cbn in Zip. split; [congruence|]. split.
  - exists (demo_input (req_body req)). split; [|by cbn].
    rewrite !(authenticated_serve _ amb req u) by done.
    cbn [handler]. unfold create_demo, answer, bind.
    cbn [user set_user params_id req_body userId].
    rewrite Hparse. cbn [success negb].
    pose proof (demo_create_logged amb (demo_input (req_body req)) 0 u w) as Hlog.
    by destruct (demo_create _ _ _ _ w) as [w' [d|e]].
  - intros Hup Hwho Hfresh.
    rewrite (create_demo_up amb req w u data) by done. cbn.
    rewrite lookup_insert_eq. eexists. split; [done|]. cbn. by rewrite Hno.
Qed.

(** *** Uploads *)

Lemma bucket_unset : CLOUDFLARE_R2_BUCKET_NAME = None -> R2_BUCKET_NAME = "".
Proof. intros H. unfold R2_BUCKET_NAME. by rewrite H. Qed.

(** C8. An authenticated upload: without a file it is answered 400; with
    a file but no bucket name it is answered 500 for the missing
    configuration; otherwise the object is put under the key made of the
    clock's reading and the file's original name, and the answer is the
    public URL of that key, unless the storage call throws, in which case
    the answer is 500 for the failed upload and nothing is stored. *)
Theorem upload_image_outcomes (amb : Ambient) (req : AuthRequest) (w : World) (u : string) :
  authenticated_as req u ->
  (file req = None ->
     serve PostUploadImage amb req w = (w, fail 400 "No image file provided")) /\
  (forall f, file req = Some f -> R2_BUCKET_NAME = "" ->
     serve PostUploadImage amb req w = (w, fail 500 "R2 bucket name not configured")) /\
  (forall f, file req = Some f -> R2_BUCKET_NAME <> "" -> r2_fault amb = None ->
     let key := "uploads/" ++ decimal (now amb) ++ "-" ++ originalname f in
     (serve PostUploadImage amb req w).2 =
       ok (JObj [("url", JStr (R2_PUBLIC_URL ++ "/" ++ key))]) /\
     bucket (serve PostUploadImage amb req w).1 =
       <[(R2_BUCKET_NAME, key) := mkObject R2_BUCKET_NAME key (buffer f) (mimetype f)]>
         (bucket w) /\
     same_tables w (serve PostUploadImage amb req w).1) /\
  (forall f e, file req = Some f -> R2_BUCKET_NAME <> "" -> r2_fault amb = Some e ->
     status (serve PostUploadImage amb req w).2 = 500%nat /\
     get_field "message" (body (serve PostUploadImage amb req w).2) =
       Some (JStr "Upload to R2 failed") /\
     (serve PostUploadImage amb req w).1 = w).
Proof.
  intros Hauth.
  rewrite !(authenticated_serve _ amb req u) by done.
  cbn [handler]. unfold upload_image, answer, bind, try_catch, r2_send.
  cbn [user set_user file]. split; [|split; [|split]].
  - intros Hf. by rewrite Hf.
  - intros f Hf Hb. by rewrite Hf, Hb.
  - intros f Hf Hb Hr. rewrite Hf, (truthy_nonempty _ Hb), Hr. by cbn.
  - intros f e Hf Hb Hr. rewrite Hf, (truthy_nonempty _ Hb), Hr. by cbn.
Qed.

(** *** Error bodies *)














End Properties.

(** ** Whole requests *)

Section Requests.
Context {P : Platform}.

(** *** What each Prisma call returns and writes *)

Lemma not_found_not_registered (e : string) (w : World) :
  user_by_email e (users w) = None -> ~ registered e w.
Proof. intros Hnone Hreg. destruct (registered_found _ _ Hreg) as [u Hu]. congruence. Qed.

(** The row [findUnique] finds is a stored row. *)
Lemma user_by_email_stored (e : string) (m : gmap string User.t) (u : User.t) :
  user_by_email e m = Some u -> User.email u = e /\ exists i, m !! i = Some u.
Proof.
  unfold user_by_email. intros Hfind. apply List.find_some in Hfind as [Hin He].
  apply String.eqb_eq in He. split; [done|].
  apply list_elem_of_In in Hin. unfold rows in Hin.
  apply list_elem_of_fmap in Hin as ([i u'] & -> & Hin).
  apply elem_of_map_to_list in Hin. by exists i.
Qed.

Lemma user_findUnique_email_inv
  (amb : Ambient) (email : option json) (w w1 : World) (r : result (option User.t)) :
  user_findUnique_email amb email w = (w1, r) ->
  w1 = record_query (UserFindUniqueByEmail email) w /\
  forall found, r = Ok found ->
    db_fault amb = None /\ exists e, email = Some (JStr e) /\ found = user_by_email e (users w).
Proof.
  unfold user_findUnique_email, prisma. intros H.
  destruct (db_fault amb); [by simplify_eq|].
  destruct email as [[]|]; simplify_eq; (split; [done|]); intros found [=]; subst; eauto.
Qed.

Lemma user_findUnique_id_inv
  (amb : Ambient) (id : string) (w w1 : World) (r : result (option User.t)) :
  user_findUnique_id amb id w = (w1, r) ->
  w1 = record_query (UserFindUniqueById id) w /\
  forall found, r = Ok found -> db_fault amb = None /\ found = users w !! id.
Proof.
  unfold user_findUnique_id, prisma. intros H.
  destruct (db_fault amb); simplify_eq; (split; [done|]); by intros found [= <-].
Qed.

Lemma user_create_inv (amb : Ambient) (data : UserInput.t) (w w1 : World) (r : result User.t) :
  user_create amb data w = (w1, r) ->
  (w1 = record_query (UserCreate data) w /\ exists e, r = Throw e) \/
  (exists e p n,
     data = UserInput.mk (Some (JStr e)) (Some (JStr p)) (Some (JStr n)) /\
     db_fault amb = None /\
     user_by_email e (users w) = None /\ users w !! new_id amb = None /\
     r = Ok (User.mk (new_id amb) e p n (now amb)) /\
     w1 = with_users (<[new_id amb := User.mk (new_id amb) e p n (now amb)]> (users w))
                     (record_query (UserCreate data) w)).
Proof.
  unfold user_create, prisma. intros H.
  destruct (db_fault amb) eqn:Hf; [simplify_eq; left; eauto|].
  destruct data as [[[]|] [[]|] [[]|]]; cbn in H; simplify_eq; try (left; by eauto).
  destruct (user_by_email _ _) eqn:He; [simplify_eq; left; by eauto|].
  destruct (users _ !! _) eqn:Hi; simplify_eq; [left; by eauto|].
  right. by eexists _, _, _.
Qed.

Lemma demo_findFirst_inv
  (amb : Ambient) (i u : string) (w w1 : World) (r : result (option Demo.t)) :
  demo_findFirst amb i u w = (w1, r) ->
  w1 = record_query (DemoFindFirst i u) w /\
  (forall d, r = Ok (Some d) ->
     db_fault amb = None /\ demos w !! i = Some d /\ Demo.userId d = u) /\
  (r = Ok None -> forall d, demos w !! i = Some d -> Demo.userId d <> u).
Proof.
  unfold demo_findFirst, prisma. intros H.
  destruct (db_fault amb); [by simplify_eq|]. cbn in H.
  destruct (demos w !! i) as [d|] eqn:Hd; [|by simplify_eq].
  destruct (String.eqb _ _) eqn:He; simplify_eq.
  - apply String.eqb_eq in He. split; [done|]. split; [|done]. by intros ? [= <-].
  - apply String.eqb_neq in He. split; [done|]. split; [done|]. by intros _ ? [= <-].
Qed.

Lemma demo_findMany_inv
  (amb : Ambient) (u : string) (w w1 : World) (r : result (list Demo.t)) :
  demo_findMany amb u w = (w1, r) -> w1 = record_query (DemoFindMany u) w.
Proof.
  unfold demo_findMany, prisma. intros H. destruct (db_fault amb); by simplify_eq.
Qed.

Lemma demo_increment_views_inv
  (amb : Ambient) (i : string) (n : Z) (w w1 : World) (r : result Demo.t) :
  demo_increment_views amb i n w = (w1, r) ->
  (w1 = record_query (DemoIncrementViews i n) w /\ exists e, r = Throw e) \/
  (exists d, db_fault amb = None /\ demos w !! i = Some d /\ r = Ok (add_views n d) /\
             w1 = with_demos (<[i := add_views n d]> (demos w))
                             (record_query (DemoIncrementViews i n) w)).
Proof.
  unfold demo_increment_views, prisma. intros H.
  destruct (db_fault amb) eqn:Hf; [simplify_eq; left; by eauto|]. cbn in H.
  destruct (demos w !! i) as [d|] eqn:Hd; simplify_eq; [right | left]; by eauto.
Qed.

Lemma demo_update_inv
  (amb : Ambient) (i : string) (data : DemoInput.t) (w w1 : World) (r : result Demo.t) :
  demo_update amb i data w = (w1, r) ->
  (w1 = record_query (DemoUpdate i data) w /\ exists e, r = Throw e) \/
  (exists d d', db_fault amb = None /\ demos w !! i = Some d /\ r = Ok d' /\
                Demo.id d' = Demo.id d /\ Demo.userId d' = Demo.userId d /\
                Demo.createdAt d' = Demo.createdAt d /\ Demo.views d' = Demo.views d /\
                w1 = with_demos (<[i := d']> (demos w)) (record_query (DemoUpdate i data) w)).
Proof.
  unfold demo_update, prisma. intros H.
  destruct (db_fault amb) eqn:Hf; [simplify_eq; left; by eauto|].
  repeat match type of H with
         | context [match arg_string ?x with _ => _ end] => destruct (arg_string x)
         | context [match arg_nullable_string ?x with _ => _ end] =>
             destruct (arg_nullable_string x)
         | context [match arg_bool ?x with _ => _ end] => destruct (arg_bool x)
         end; simplify_eq; try (left; by eauto).
  cbn in H. destruct (demos w !! i) as [d|] eqn:Hd; simplify_eq; [|left; by eauto].
  right. by eexists _, _.
Qed.

Lemma demo_delete_inv (amb : Ambient) (i : string) (w w1 : World) (r : result Demo.t) :
  demo_delete amb i w = (w1, r) ->
  (w1 = record_query (DemoDelete i) w /\ exists e, r = Throw e) \/
  (exists d, db_fault amb = None /\ demos w !! i = Some d /\ r = Ok d /\
             w1 = with_demos (delete i (demos w)) (record_query (DemoDelete i) w)).
Proof.
  unfold demo_delete, prisma. intros H.
  destruct (db_fault amb) eqn:Hf; [simplify_eq; left; by eauto|]. cbn in H.
  destruct (demos w !! i) as [d|] eqn:Hd; simplify_eq; [right | left]; by eauto.
Qed.

Lemma demo_create_inv
  (amb : Ambient) (data : DemoInput.t) (views : Z) (connect : string) (w w1 : World)
  (r : result Demo.t) :
  demo_create amb data views connect w = (w1, r) ->
  (w1 = record_query (DemoCreate data views connect) w /\ exists e, r = Throw e) \/
  (exists d, db_fault amb = None /\ is_Some (users w !! connect) /\
             demos w !! new_id amb = None /\ r = Ok d /\
             Demo.id d = new_id amb /\ Demo.userId d = connect /\
             Demo.views d = views /\ Demo.createdAt d = now amb /\
             w1 = with_demos (<[new_id amb := d]> (demos w))
                             (record_query (DemoCreate data views connect) w)).
Proof.
  unfold demo_create, prisma. intros H.
  destruct (db_fault amb) eqn:Hf; [simplify_eq; left; by eauto|].
  repeat match type of H with
         | context [match arg_string ?x with _ => _ end] => destruct (arg_string x) as [[?|]|]
         | context [match arg_nullable_string ?x with _ => _ end] =>
             destruct (arg_nullable_string x)
         | context [match arg_bool ?x with _ => _ end] => destruct (arg_bool x)
         end; simplify_eq; try (left; by eauto).
  cbn in H. destruct (users w !! connect) as [who|] eqn:Hu;
    destruct (demos w !! new_id amb) as [d0|] eqn:Hd; simplify_eq; try (left; by eauto).
  right. eexists. by repeat split.
Qed.

(** *** What each handler may change *)

Lemma logged_none (w : World) : logged w w.
Proof. exists []. split; [by rewrite app_nil_r | cbn; lia]. Qed.

Ltac logged :=
  first [ apply logged_none
        | by (exists []; split; [cbn; by rewrite app_nil_r | cbn; lia])
        | by (eexists [_]; split; [cbn | cbn; lia])
        | by (eexists [_; _]; split; [cbn; by rewrite <- app_assoc | cbn; lia]) ].

Ltac untouched := split; [by apply effect_none | logged].

Lemma signup_effect
  (amb : Ambient) (req : AuthRequest) (w : World) (who : option string)
  (sent : option MulterFile) :
  effect PostSignup amb who sent w (signup amb req w).1 /\ logged w (signup amb req w).1.
Proof.
  unfold signup, answer, bind.
  destruct (negb (success _)); [untouched|]. cbv zeta.
  destruct (negb (strict_eq _ _)); [untouched|].
  destruct (user_findUnique_email amb _ w) as [w1 [found|e]] eqn:E1;
    apply user_findUnique_email_inv in E1 as [-> Hfound]; [|untouched].
  destruct (Hfound _ eq_refl) as (Hup & e & He & ->).
  destruct (user_by_email e (users w)) as [u|] eqn:Hu; [untouched|].
  destruct (user_create amb _ _) as [w2 [u|e']] eqn:E2;
    apply user_create_inv in E2
      as [[-> [e2 ?]] | (e3 & p & n & Hdata & _ & Hnone & Hfresh & Hr & ->)];
    simplify_eq; try untouched.
  split; [|logged].
  eapply (effect_user _ _ _ _ _ _ (User.mk (new_id amb) e p n (now amb))); try done.
  by apply not_found_not_registered.
Qed.

Lemma login_effect
  (amb : Ambient) (req : AuthRequest) (w : World) (who : option string)
  (sent : option MulterFile) :
  effect PostLogin amb who sent w (login amb req w).1 /\ logged w (login amb req w).1.
Proof.
  unfold login, answer, try_catch, bind, throw.
  destruct (signinSchema _) as [data|]; [|untouched].
  destruct (user_findUnique_email amb _ w) as [w1 [[u|]|e]] eqn:E1;
    apply user_findUnique_email_inv in E1 as [-> _]; try untouched.
  destruct (negb _); untouched.
Qed.

Lemma me_effect
  (amb : Ambient) (req : AuthRequest) (w : World) (who : option string)
  (sent : option MulterFile) :
  effect GetMe amb who sent w (me amb req w).1 /\ logged w (me amb req w).1.
Proof.
  unfold me, answer, bind. destruct (user req); [|untouched].
  destruct (user_findUnique_id amb _ w) as [w1 [[u|]|e]] eqn:E1;
    apply user_findUnique_id_inv in E1 as [-> _]; untouched.
Qed.

Lemma list_demos_effect
  (amb : Ambient) (req : AuthRequest) (w : World) (who : option string)
  (sent : option MulterFile) :
  effect GetDemos amb who sent w (list_demos amb req w).1 /\ logged w (list_demos amb req w).1.
Proof.
  unfold list_demos, answer, bind. destruct (user req); [|untouched].
  destruct (demo_findMany amb _ w) as [w1 [l|e]] eqn:E1;
    apply demo_findMany_inv in E1 as ->; untouched.
Qed.

Lemma create_demo_effect
  (amb : Ambient) (req : AuthRequest) (w : World) (sent : option MulterFile) :
  effect PostDemos amb (userId <$> user req) sent w (create_demo amb req w).1 /\
  logged w (create_demo amb req w).1.
Proof.
  unfold create_demo, answer, bind. destruct (user req) as [[u]|]; [|untouched].
  destruct (negb (success _)); [untouched|].
  destruct (demo_create amb _ _ _ w) as [w1 [d|e]] eqn:E1;
    apply demo_create_inv in E1
      as [[-> [e1 ?]] | (d1 & Hup & Hwho & Hfresh & Hr & Hid & Hown & Hv & Hc & ->)];
    simplify_eq; try untouched.
  split; [|logged]. cbn in *. subst u.
  by eapply (effect_demo _ _ _ _ _ _ d1).
Qed.

Lemma get_demo_effect
  (amb : Ambient) (req : AuthRequest) (w : World) (sent : option MulterFile) :
  effect GetDemo amb (userId <$> user req) sent w (get_demo amb req w).1 /\
  logged w (get_demo amb req w).1.
Proof.
  unfold get_demo, answer, bind. destruct (user req) as [[u]|]; [|untouched]. cbv zeta.
  destruct (demo_findFirst amb _ _ w) as [w1 [[d|]|e]] eqn:E1;
    apply demo_findFirst_inv in E1 as (-> & Hfound & _); try untouched.
  destruct (Hfound d eq_refl) as (Hup & Hd & Hown).
  destruct (demo_increment_views amb _ _ _) as [w2 [d2|e]] eqn:E2;
    apply demo_increment_views_inv in E2
      as [[-> [e2 ?]] | (d3 & _ & Hd3 & Hr & ->)];
    simplify_eq; try untouched.
  split; [|logged]. cbn in *. simplify_eq.
  eapply (effect_row _ _ _ _ _ _ (params_id req) d (add_views 1 d)); try done.
  by right.
Qed.

Lemma update_demo_effect
  (amb : Ambient) (req : AuthRequest) (w : World) (sent : option MulterFile) :
  effect PutDemo amb (userId <$> user req) sent w (update_demo amb req w).1 /\
  logged w (update_demo amb req w).1.
Proof.
  unfold update_demo, answer, bind. destruct (user req) as [[u]|]; [|untouched]. cbv zeta.
  destruct (negb (success _)); [untouched|].
  destruct (demo_findFirst amb _ _ w) as [w1 [[d|]|e]] eqn:E1;
    apply demo_findFirst_inv in E1 as (-> & Hfound & _); try untouched.
  destruct (Hfound d eq_refl) as (Hup & Hd & Hown).
  destruct (demo_update amb _ _ _) as [w2 [d2|e]] eqn:E2;
    apply demo_update_inv in E2
      as [[-> [e2 ?]] | (d3 & d' & _ & Hd3 & Hr & Hid & Ho & Hc & Hv & ->)];
    simplify_eq; try untouched.
  split; [|logged]. cbn in *. simplify_eq.
  eapply (effect_row _ _ _ _ _ _ (params_id req) d d'); try done.
  by left.
Qed.

Lemma delete_demo_effect
  (amb : Ambient) (req : AuthRequest) (w : World) (sent : option MulterFile) :
  effect DeleteDemo amb (userId <$> user req) sent w (delete_demo amb req w).1 /\
  logged w (delete_demo amb req w).1.
Proof.
  unfold delete_demo, answer, bind. destruct (user req) as [[u]|]; [|untouched]. cbv zeta.
  destruct (demo_findFirst amb _ _ w) as [w1 [[d|]|e]] eqn:E1;
    apply demo_findFirst_inv in E1 as (-> & Hfound & _); try untouched.
  destruct (Hfound d eq_refl) as (Hup & Hd & Hown).
  destruct (demo_delete amb _ _) as [w2 [d2|e]] eqn:E2;
    apply demo_delete_inv in E2 as [[-> [e2 ?]] | (d3 & _ & Hd3 & Hr & ->)];
    simplify_eq; try untouched.
  split; [|logged]. cbn in *. simplify_eq.
  by eapply (effect_delete _ _ _ _ _ _ (params_id req) d).
Qed.

Lemma upload_image_effect
  (amb : Ambient) (req : AuthRequest) (w : World) (who : option string) :
  effect PostUploadImage amb who (file req) w (upload_image amb req w).1 /\
  logged w (upload_image amb req w).1.
Proof.
  unfold upload_image, answer, bind, try_catch, r2_send.
  destruct (user req); [|untouched]. destruct (file req) as [f|]; [|untouched].
  destruct (negb _); [untouched|]. cbv zeta.
  destruct (r2_fault amb) eqn:Hr; [untouched|].
  split; [|logged]. by eapply effect_object.
Qed.

Lemma handler_effect (r : Route) (amb : Ambient) (req : AuthRequest) (w : World) :
  effect r amb (userId <$> user req) (file req) w (handler r amb req w).1 /\
  logged w (handler r amb req w).1.
Proof.
  destruct r; cbn [handler].
  - apply signup_effect.
  - apply login_effect.
  - apply me_effect.
  - apply create_demo_effect.
  - apply list_demos_effect.
  - apply get_demo_effect.
  - apply update_demo_effect.
  - apply delete_demo_effect.
  - apply upload_image_effect.
  - untouched.
  - untouched.
Qed.

(** What the middleware lets through is the request with [user] set. *)
Lemma authenticateToken_passes (req req' : AuthRequest) :
  authenticateToken req = inr req' -> exists u, req' = set_user req (mkIdentity u).
Proof.
  unfold authenticateToken. intros H.
  repeat match type of H with
         | context [match ?x with _ => _ end] => destruct x
         end; simplify_eq; by eexists.
Qed.

(** Every request, on every route, changes the tables and the bucket in
    one of the ways of [effect], for the caller the middleware let
    through, and makes at most two Prisma calls. *)
Lemma serve_effect (r : Route) (amb : Ambient) (req : AuthRequest) (w : World) :
  effect r amb (caller r req) (file req) w (serve r amb req w).1 /\
  logged w (serve r amb req w).1.
Proof.
  unfold serve, caller. destruct (protected r); [|apply handler_effect].
  destruct (authenticateToken req) as [resp|req'] eqn:Hauth; [untouched|].
  destruct (authenticateToken_passes _ _ Hauth) as [u ->].
  apply (handler_effect r amb (set_user req (mkIdentity u)) w).
Qed.

(** *** Consequences for every route *)

(** A request makes at most two Prisma calls, whatever the route and the
    outcome, and never drops an entry of the log. *)
Theorem at_most_two_prisma_calls (r : Route) (amb : Ambient) (req : AuthRequest) (w : World) :
  exists qs,
    prisma_log (serve r amb req w).1 = (prisma_log w ++ qs)%list /\ (length qs <= 2)%nat.
Proof. destruct (serve_effect r amb req w) as [_ Hlog]. exact Hlog. Qed.

(** A request never changes a demo of somebody else than the caller, on
    any route: not its columns, not its views, not its existence. *)
Theorem demos_of_others_untouched
  (r : Route) (amb : Ambient) (req : AuthRequest) (w : World) (i : string) (d : Demo.t) :
  demos w !! i = Some d -> caller r req <> Some (Demo.userId d) ->
  demos (serve r amb req w).1 !! i = Some d.
Proof.
  intros Hd Hother.
  destruct (serve_effect r amb req w) as [Heff _].
  destruct Heff as [_ -> _ | u _ _ _ _ _ _ _ -> _
                   | d0 _ _ Hwho _ Hfresh _ _ _ -> _ _
                   | i0 d0 d' _ Hwho Hd0 _ _ _ _ -> _ _
                   | i0 d0 _ _ Hwho Hd0 -> _ _
                   | f _ _ _ _ _ ->]; try done.
  - rewrite lookup_insert_ne; [done|]. intros <-. congruence.
  - rewrite lookup_insert_ne; [done|]. intros <-. congruence.
  - rewrite lookup_delete_ne; [done|]. intros <-. congruence.
Qed.


(** Through any request a stored demo keeps its id, its owner and its
    creation time, and its view counter stays or goes up by one; it goes
    up only on a get-by-id by the owner. *)
Theorem demo_columns_fixed
  (r : Route) (amb : Ambient) (req : AuthRequest) (w : World) (i : string) (d d' : Demo.t) :
  demos w !! i = Some d -> demos (serve r amb req w).1 !! i = Some d' ->
  Demo.id d' = Demo.id d /\ Demo.userId d' = Demo.userId d /\
  Demo.createdAt d' = Demo.createdAt d /\
  (Demo.views d' = Demo.views d \/
   Demo.views d' = (Demo.views d + 1)%Z /\ r = GetDemo /\
   caller r req = Some (Demo.userId d)).
Proof.
  intros Hd.
  destruct (serve_effect r amb req w) as [Heff _].
  destruct Heff as [_ -> _ | u _ _ _ _ _ _ _ -> _
                   | d0 _ _ Hwho _ Hfresh _ _ _ -> _ _
                   | i0 d0 d1 _ Hwho Hd0 Hid Hown Hc Hv -> _ _
                   | i0 d0 _ _ Hwho Hd0 -> _ _
                   | f _ _ _ _ _ ->].
  1, 2, 6: intros Hd'; simplify_eq; by auto.
  - rewrite lookup_insert_ne; [|intros <-; congruence].
    intros Hd'; simplify_eq; by auto.
  - destruct (decide (i0 = i)) as [<-|Hne].
    + rewrite lookup_insert_eq. intros [= <-]. simplify_eq.
      repeat split; try done.
      destruct Hv as [[_ Hv] | [-> ->]]; [by left | right; by auto].
    + rewrite lookup_insert_ne by done. intros Hd'; simplify_eq; by auto.
  - destruct (decide (i0 = i)) as [<-|Hne].
    + by rewrite lookup_delete_eq.
    + rewrite lookup_delete_ne by done. intros Hd'; simplify_eq; by auto.
Qed.

(** While the database is failing, a request that reaches the store is
    answered 500 with the fixed message, which does not carry the message
    of the failure (login alone adds it, as [details]); the handler stops
    at its first Prisma call, the one call the log gains.  This holds for
    the profile, the list, get-by-id and delete of an authenticated
    caller, for create and update once the payload passed the schema, and
    for a signup that passed the schema and the confirmation. *)
Theorem database_down_answers_500
  (amb : Ambient) (req : AuthRequest) (w : World) (u e : string) :
  db_fault amb = Some e ->
  (authenticated_as req u ->
   serve GetMe amb req w =
     (record_query (UserFindUniqueById u) w, fail 500 "Internal server error") /\
   serve GetDemos amb req w =
     (record_query (DemoFindMany u) w, fail 500 "Internal server error") /\
   serve GetDemo amb req w =
     (record_query (DemoFindFirst (params_id req) u) w, fail 500 "Internal server error") /\
   serve DeleteDemo amb req w =
     (record_query (DemoFindFirst (params_id req) u) w, fail 500 "Internal server error") /\
   (is_Some (demoSchema (req_body req)) ->
    serve PostDemos amb req w =
      (record_query (DemoCreate (demo_input (req_body req)) 0 u) w,
       fail 500 "Internal server error") /\
    serve PutDemo amb req w =
      (record_query (DemoFindFirst (params_id req) u) w,
       fail 500 "Internal server error"))) /\
  (is_Some (signupSchema (req_body req)) ->
   strict_eq (get_field "password" (req_body req))
             (get_field "confirmPassword" (req_body req)) = true ->
   serve PostSignup amb req w =
     (record_query (UserFindUniqueByEmail (get_field "email" (req_body req))) w,
      fail 500 "Internal server error")).
Proof.
  intros Hdown. split.
  - intros Hauth. rewrite !(authenticated_serve _ amb req u) by done.
    cbn [handler].
    unfold me, list_demos, get_demo, delete_demo, create_demo, update_demo, answer, bind,
      user_findUnique_id, demo_findMany, demo_findFirst, demo_create.
    cbn [user set_user params_id req_body userId].
    rewrite !(prisma_down _ _ _ _ e) by done.
    do 4 (split; [done|]).
    intros [data Hparse]. rewrite Hparse. cbn [success negb].
    by rewrite !(prisma_down _ _ _ _ e).
  - intros [data Hparse] Hconfirm. unfold serve. cbn [protected handler].
    unfold signup, answer, bind, user_findUnique_email.
    rewrite Hparse, Hconfirm. cbn [success negb].
    by rewrite (prisma_down _ _ _ _ e).
Qed.

(** *** Accounts, from signup to profile *)

(** A fresh address finds nobody, and after the insert it finds the new
    row. *)
Lemma user_by_email_fresh (e : string) (w : World) :
  ~ registered e w -> user_by_email e (users w) = None.
Proof.
  intros Hnew. destruct (user_by_email e (users w)) as [u|] eqn:Hu; [|done].
  destruct Hnew. by apply (found_registered e w u).
Qed.

Lemma user_by_email_inserted (w : World) (i : string) (u : User.t) :
  ~ registered (User.email u) w ->
  user_by_email (User.email u) (<[i := u]> (users w)) = Some u.
Proof.
  intros Hnew.
  destruct (user_by_email (User.email u) (<[i := u]> (users w))) as [u'|] eqn:Hfind.
  - apply user_by_email_stored in Hfind as [He [j Hj]].
    destruct (decide (i = j)) as [<-|Hne].
    + rewrite lookup_insert_eq in Hj. congruence.
    + rewrite lookup_insert_ne in Hj by done. destruct Hnew. by exists j, u'.
  - apply (not_found_not_registered _ (with_users (<[i := u]> (users w)) w)) in Hfind.
    destruct Hfind. exists i, u. split; [|done]. cbn. by rewrite lookup_insert_eq.
Qed.

(** What a signup that passes every check does. *)
Lemma signup_up (amb : Ambient) (req : AuthRequest) (w : World) (data : SignupData) :
  signupSchema (req_body req) = Some data ->
  strict_eq (get_field "password" (req_body req))
            (get_field "confirmPassword" (req_body req)) = true ->
  ~ registered (signup_email data) w -> users w !! new_id amb = None ->
  db_fault amb = None ->
  let u := User.mk (new_id amb) (signup_email data) (signup_password data)
                   (signup_name data) (now amb) in
  serve PostSignup amb req w =
    (with_users (<[new_id amb := u]> (users w))
       (record_query
          (UserCreate (UserInput.mk (get_field "email" (req_body req))
                                    (get_field "password" (req_body req))
                                    (get_field "name" (req_body req))))
          (record_query (UserFindUniqueByEmail (get_field "email" (req_body req))) w)),
     ok (JObj [("message", JStr "User created successfully");
               ("token", JStr (jwt_sign (new_id amb) (now amb) JWT_SECRET))])).
Proof.
  intros Hparse Hconfirm Hnew Hfresh Hup u.
  destruct (signupSchema_fields _ _ Hparse) as (Hn & He & Hp).
  unfold serve. cbn [protected handler]. unfold signup, answer, bind.
  rewrite Hparse, Hconfirm. cbn [success negb].
  rewrite He at 1. rewrite user_findUnique_email_up by done.
  rewrite (user_by_email_fresh _ _ Hnew).
  unfold user_create. rewrite prisma_up by done. cbn.
  rewrite He, Hp, Hn. cbn.
  by rewrite (user_by_email_fresh _ _ Hnew), Hfresh.
Qed.

(** A signup with a valid body, a matching confirmation and an address
    nobody has, while the database answers and draws an unused id, stores
    one user row with the fields of the body, as they came, and answers
    200 with a token signed for the new id; the demo table is untouched. *)
Theorem signup_creates_user (amb : Ambient) (req : AuthRequest) (w : World) (data : SignupData) :
  signupSchema (req_body req) = Some data ->
  strict_eq (get_field "password" (req_body req))
            (get_field "confirmPassword" (req_body req)) = true ->
  ~ registered (signup_email data) w -> users w !! new_id amb = None ->
  db_fault amb = None ->
  (serve PostSignup amb req w).2 =
    ok (JObj [("message", JStr "User created successfully");
              ("token", JStr (jwt_sign (new_id amb) (now amb) JWT_SECRET))]) /\
  users (serve PostSignup amb req w).1 =
    <[new_id amb := User.mk (new_id amb) (signup_email data) (signup_password data)
                            (signup_name data) (now amb)]> (users w) /\
  demos (serve PostSignup amb req w).1 = demos w.
Proof.
  intros Hparse Hconfirm Hnew Hfresh Hup.
  by rewrite (signup_up amb req w data).
Qed.

(** A signup whose body fails the schema, or whose confirmation differs
    from the password, is answered 411 before any Prisma call: the world,
    log included, is untouched, also while the database is failing. *)
Theorem signup_rejects_before_store (amb : Ambient) (req : AuthRequest) (w : World) :
  (signupSchema (req_body req) = None ->
   serve PostSignup amb req w = (w, fail 411 "Invalid input data")) /\
  (is_Some (signupSchema (req_body req)) ->
   strict_eq (get_field "password" (req_body req))
             (get_field "confirmPassword" (req_body req)) = false ->
   serve PostSignup amb req w = (w, fail 411 "Passwords do not match")).
Proof.
  unfold serve. cbn [protected handler]. unfold signup, answer. split.
  - intros Hparse. by rewrite Hparse.
  - intros [data Hparse] Hconfirm. by rewrite Hparse, Hconfirm.
Qed.

(** After a signup that succeeded, a login with the same address and
    password is answered with a token for the new user's id. *)
Theorem signup_then_login
  (amb amb' : Ambient) (req req' : AuthRequest) (w : World) (data : SignupData) :
  signupSchema (req_body req) = Some data ->
  strict_eq (get_field "password" (req_body req))
            (get_field "confirmPassword" (req_body req)) = true ->
  ~ registered (signup_email data) w -> users w !! new_id amb = None ->
  db_fault amb = None ->
  signinSchema (req_body req') = Some (mkSignin (signup_email data) (signup_password data)) ->
  db_fault amb' = None ->
  (serve PostLogin amb' req' (serve PostSignup amb req w).1).2 =
    ok (JObj [("token", JStr (jwt_sign (new_id amb) (now amb') JWT_SECRET))]).
Proof.
  intros Hparse Hconfirm Hnew Hfresh Hup Hparse' Hup'.
  rewrite (signup_up amb req w data) by done. cbn [fst].
  unfold serve. cbn [protected handler]. unfold login, answer, try_catch, bind.
  rewrite Hparse'. cbn [signin_email signin_password].
  rewrite user_findUnique_email_up by done. cbn [users with_users record_query].
  pose proof (user_by_email_inserted w (new_id amb)
                (User.mk (new_id amb) (signup_email data) (signup_password data)
                         (signup_name data) (now amb)) Hnew) as Hfound.
  cbn [User.email] in Hfound. rewrite Hfound. cbn [User.password User.id].
  by rewrite String.eqb_refl.
Qed.

(** A login whose body fails the schema is answered 400 before any Prisma
    call, also while the database is failing. *)
Theorem login_rejects_malformed (amb : Ambient) (req : AuthRequest) (w : World) :
  signinSchema (req_body req) = None ->
  serve PostLogin amb req w = (w, fail 400 "Invalid email or password format").
Proof.
  intros Hparse. unfold serve. cbn [protected handler]. unfold login, answer.
  by rewrite Hparse.
Qed.

(** A login with a valid body while the database is failing is answered
    500; the body carries the message of the failure as [details], or
    "Unknown error occurred" when that message is empty; no table
    changes. *)
Theorem login_database_down
  (amb : Ambient) (req : AuthRequest) (w : World) (data : SigninData) (e : string) :
  signinSchema (req_body req) = Some data -> db_fault amb = Some e ->
  (serve PostLogin amb req w).2 =
    mkResponse 500
      (JObj [("message", JStr "Internal server error");
             ("details", JStr (if String.eqb e "" then "Unknown error occurred" else e))]) /\
  same_tables w (serve PostLogin amb req w).1.
Proof.
  intros Hparse Hdown. unfold serve. cbn [protected handler].
  unfold login, answer, try_catch, bind, throw, user_findUnique_email.
  rewrite Hparse, (prisma_down _ _ _ _ e) by done. cbn.
  unfold truthy. by destruct (String.eqb e "").
Qed.

(** The profile endpoint, while the database answers: for a caller whose
    row is stored the answer carries the row's id, e-mail address and
    creation time and nothing else of it; for a caller without a row it
    is 404; the tables are untouched. *)
Theorem me_profile (amb : Ambient) (req : AuthRequest) (w : World) (u : string) :
  authenticated_as req u -> db_fault amb = None ->
  (forall usr, users w !! u = Some usr ->
     (serve GetMe amb req w).2 =
       ok (JObj [("user", JObj [("id", JStr (User.id usr));
                                ("email", JStr (User.email usr));
                                ("createdAt", JDate (User.createdAt usr))])])) /\
  (users w !! u = None -> (serve GetMe amb req w).2 = fail 404 "User not found") /\
  same_tables w (serve GetMe amb req w).1.
Proof.
  intros Hauth Hup. rewrite !(authenticated_serve _ amb req u) by done.
  cbn [handler]. unfold me, answer, bind, user_findUnique_id.
  cbn [user set_user userId]. rewrite prisma_up by done.
  cbn. destruct (users w !! u) as [usr|]; cbn; repeat split; try done.
  by intros ? [= <-].
Qed.

(** *** Demos, from create to delete *)

#[local] Existing Instance newer_first_dec.

#[local] Instance newer_first_total : Total newer_first.
Proof. intros a b. unfold newer_first. lia. Qed.

#[local] Instance newer_first_trans : Transitive newer_first.
Proof. intros a b c. unfold newer_first. lia. Qed.

(** The list endpoint, while the database answers: the answer is the array
    of exactly the caller's rows, each once, the newest first; the tables
    are untouched. *)
Theorem list_demos_own_newest_first (amb : Ambient) (req : AuthRequest) (w : World) (u : string) :
  authenticated_as req u -> db_fault amb = None ->
  exists found : list Demo.t,
    (serve GetDemos amb req w).2 = ok (JArr (List.map demo_json found)) /\
    (forall d, d ∈ found <-> exists i, demos w !! i = Some d /\ Demo.userId d = u) /\
    found ≡ₚ List.filter (fun d => String.eqb (Demo.userId d) u) (rows (demos w)) /\
    StronglySorted (fun a b => (Demo.createdAt b <= Demo.createdAt a)%N) found /\
    same_tables w (serve GetDemos amb req w).1.
Proof.
  intros Hauth Hup. rewrite !(authenticated_serve _ amb req u) by done.
  cbn [handler]. unfold list_demos, answer, bind, demo_findMany.
  cbn [user set_user userId]. rewrite prisma_up by done. cbn.
  eexists. split; [reflexivity|].
  pose proof (merge_sort_Permutation newer_first
                (List.filter (fun d => String.eqb (Demo.userId d) u) (rows (demos w))))
    as Hperm.
  split; [|split; [exact Hperm|split; [|done]]].
  - intros d. rewrite Hperm, list_elem_of_In, List.filter_In, <- list_elem_of_In.
    unfold rows. rewrite list_elem_of_fmap, String.eqb_eq. split.
    + intros [([i d'] & -> & Hin) Hown]. exists i. split; [|done].
      by apply elem_of_map_to_list.
    + intros (i & Hd & Hown). split; [|done]. exists (i, d). split; [done|].
      by apply elem_of_map_to_list.
  - apply (StronglySorted_merge_sort newer_first).
Qed.

(** Delete by the owner, while the database answers: the row is removed,
    every other row and the user table stay, and the answer is the
    confirmation; when no row with that id belongs to the caller the
    answer is 404 and the tables are untouched. *)
Theorem delete_demo_by_owner (amb : Ambient) (req : AuthRequest) (w : World) (u : string) :
  authenticated_as req u -> db_fault amb = None ->
  (forall D, demos w !! params_id req = Some D -> Demo.userId D = u ->
     (serve DeleteDemo amb req w).2 = ok (message_only "Demo deleted successfully") /\
     demos (serve DeleteDemo amb req w).1 = delete (params_id req) (demos w) /\
     users (serve DeleteDemo amb req w).1 = users w) /\
  ((forall D, demos w !! params_id req = Some D -> Demo.userId D <> u) ->
     (serve DeleteDemo amb req w).2 = fail 404 "Demo not found" /\
     same_tables w (serve DeleteDemo amb req w).1).
Proof.
  intros Hauth Hup. rewrite !(authenticated_serve _ amb req u) by done.
  cbn [handler]. unfold delete_demo, answer, bind.
  cbn [user set_user params_id userId].
  rewrite demo_findFirst_up by done. split.
  - intros D HD Hown. rewrite HD, Hown, String.eqb_refl.
    unfold demo_delete. rewrite prisma_up by done. cbn. rewrite HD. by cbn.
  - intros Hnone. destruct (demos w !! params_id req) as [D|] eqn:HD; [|by cbn].
    rewrite (proj2 (String.eqb_neq _ _) (Hnone D eq_refl)). by cbn.
Qed.

(** Once its owner has deleted a demo, a get-by-id or a second delete of
    that id, by any authenticated user, is answered 404. *)
Theorem deleted_demo_is_gone
  (amb amb' : Ambient) (req req' : AuthRequest) (w : World) (u v : string) (D : Demo.t) :
  authenticated_as req u -> db_fault amb = None ->
  demos w !! params_id req = Some D -> Demo.userId D = u ->
  authenticated_as req' v -> db_fault amb' = None -> params_id req' = params_id req ->
  (serve GetDemo amb' req' (serve DeleteDemo amb req w).1).2 = fail 404 "Demo not found" /\
  (serve DeleteDemo amb' req' (serve DeleteDemo amb req w).1).2 = fail 404 "Demo not found".
Proof.
  intros Hauth Hup HD Hown Hauth' Hup' Hid.
  assert (Hgone : demos (serve DeleteDemo amb req w).1 !! params_id req' = None).
  { rewrite (authenticated_serve _ amb req u) by done.
    cbn [handler]. unfold delete_demo, answer, bind.
    cbn [user set_user params_id userId].
    rewrite demo_findFirst_up by done. rewrite HD, Hown, String.eqb_refl.
    unfold demo_delete. rewrite prisma_up by done. cbn. rewrite HD. cbn.
    rewrite Hid. apply lookup_delete_eq. }
  rewrite !(authenticated_serve _ amb' req' v) by done.
  cbn [handler]. unfold get_demo, delete_demo, answer, bind.
  cbn [user set_user params_id userId].
  rewrite !demo_findFirst_up by done. by rewrite Hgone.
Qed.

(** After a create that succeeded, a get-by-id of the new id by the same
    user returns the created row, with no views yet, and leaves it stored
    with one view. *)
Theorem created_demo_can_be_read
  (amb amb' : Ambient) (req req' : AuthRequest) (w : World) (u : string) (data : DemoData) :
  authenticated_as req u -> demoSchema (req_body req) = Some data ->
  db_fault amb = None -> is_Some (users w !! u) -> demos w !! new_id amb = None ->
  authenticated_as req' u -> db_fault amb' = None -> params_id req' = new_id amb ->
  let D := created_row amb (req_body req) data u in
  (serve PostDemos amb req w).2 = mkResponse 201 (demo_json D) /\
  (serve GetDemo amb' req' (serve PostDemos amb req w).1).2 = ok (demo_json D) /\
  Demo.views D = 0%Z /\
  demos (serve GetDemo amb' req' (serve PostDemos amb req w).1).1 !! new_id amb =
    Some (add_views 1 D).
Proof.
  intros Hauth Hparse Hup Hwho Hfresh Hauth' Hup' Hid D.
  rewrite (create_demo_up amb req w u data) by done. cbn [fst snd].
  split; [done|].
  rewrite (get_demo_owner_up amb' req' _ u D); try done.
  - cbn. rewrite Hid. by rewrite lookup_insert_eq.
  - cbn. rewrite Hid. by rewrite lookup_insert_eq.
Qed.

(** Create and update look at the payload first: a body that fails the
    demo schema is answered 400 before any Prisma call, whoever the caller
    is and whatever id is addressed, also while the database is failing. *)
Theorem demo_payload_checked_first (amb : Ambient) (req : AuthRequest) (w : World) (u : string) :
  authenticated_as req u -> demoSchema (req_body req) = None ->
  serve PostDemos amb req w = (w, fail 400 "Invalid demo data") /\
  serve PutDemo amb req w = (w, fail 400 "Invalid demo data").
Proof.
  intros Hauth Hparse. rewrite !(authenticated_serve _ amb req u) by done.
  cbn [handler]. unfold create_demo, update_demo, answer.
  cbn [user set_user req_body]. by rewrite Hparse.
Qed.

(** An update with a valid payload of an id under which the caller owns
    no row, missing ids included, is answered 404 while the database
    answers, and changes no table. *)
Theorem update_demo_not_found
  (amb : Ambient) (req : AuthRequest) (w : World) (u : string) (data : DemoData) :
  authenticated_as req u -> db_fault amb = None ->
  demoSchema (req_body req) = Some data ->
  (forall D, demos w !! params_id req = Some D -> Demo.userId D <> u) ->
  (serve PutDemo amb req w).2 = fail 404 "Demo not found" /\
  same_tables w (serve PutDemo amb req w).1.
Proof.
  intros Hauth Hup Hparse Hnone. rewrite !(authenticated_serve _ amb req u) by done.
  cbn [handler]. unfold update_demo, answer, bind.
  cbn [user set_user params_id req_body userId]. rewrite Hparse. cbn [success negb].
  rewrite demo_findFirst_up by done.
  destruct (demos w !! params_id req) as [D|] eqn:HD; [|by cbn].
  rewrite (proj2 (String.eqb_neq _ _) (Hnone D eq_refl)). by cbn.
Qed.

(** *** Tokens *)

(** A token the server signed, sent back in a bearer header, passes the
    middleware as the user it was signed for, provided [jwt.verify]
    accepts it and it is not empty and has no space. *)
Lemma issued_token_authenticates (req : AuthRequest) (uid : string) (iat : N) :
  jwt_verify (jwt_sign uid iat JWT_SECRET) JWT_SECRET = Some uid ->
  has_char " " (jwt_sign uid iat JWT_SECRET) = false ->
  jwt_sign uid iat JWT_SECRET <> "" ->
  authorization req = Some ("Bearer " ++ jwt_sign uid iat JWT_SECRET) ->
  authenticated_as req uid.
Proof.
  intros Hround Hsp Hne Hh.
  unfold authenticated_as, authenticateToken. rewrite Hh.
  rewrite bearer_truthy, bearer_prefix. cbn [negb orb].
  rewrite <- (append_empty_r (jwt_sign uid iat JWT_SECRET)) at 1.
  rewrite bearer_token by auto.
  by rewrite (truthy_nonempty _ Hne), Hround.
Qed.

Lemma login_reads_only (amb : Ambient) (req : AuthRequest) (w : World) :
  same_tables w (serve PostLogin amb req w).1.
Proof.
  destruct (serve_effect PostLogin amb req w) as [Heff _].
  destruct Heff as [| | | ? ? ? ? ? ? ? ? ? [[? _]|[? _]] | |]; try done.
Qed.

(** Login, then the profile: in a world that satisfies the constraints of
    the database, the token a successful login returns, sent as a bearer
    header, gets the profile of the user who logged in, provided
    [jwt.verify] accepts that token and it is not empty and has no
    space. *)
Theorem login_then_me
  (amb amb' : Ambient) (req req' : AuthRequest) (w : World) (data : SigninData)
  (usr : User.t) :
  jwt_verify (jwt_sign (User.id usr) (now amb) JWT_SECRET) JWT_SECRET = Some (User.id usr) ->
  has_char " " (jwt_sign (User.id usr) (now amb) JWT_SECRET) = false ->
  jwt_sign (User.id usr) (now amb) JWT_SECRET <> "" ->
  consistent w ->
  signinSchema (req_body req) = Some data -> db_fault amb = None ->
  user_by_email (signin_email data) (users w) = Some usr ->
  User.password usr = signin_password data ->
  authorization req' =
    Some ("Bearer " ++ jwt_sign (User.id usr) (now amb) JWT_SECRET) ->
  db_fault amb' = None ->
  (serve PostLogin amb req w).2 =
    ok (JObj [("token", JStr (jwt_sign (User.id usr) (now amb) JWT_SECRET))]) /\
  (serve GetMe amb' req' (serve PostLogin amb req w).1).2 =
    ok (JObj [("user", JObj [("id", JStr (User.id usr));
                             ("email", JStr (signin_email data));
                             ("createdAt", JDate (User.createdAt usr))])]).
Proof.
  intros Hround Hsp Hne (Hkey & _ & _) Hparse Hup Hfound Hpw Hh Hup'.
  destruct (user_by_email_stored _ _ _ Hfound) as [He [i Hi]].
  assert (Hrow : users w !! User.id usr = Some usr) by (by rewrite (Hkey i usr Hi)).
  split.
  - unfold serve. cbn [protected handler]. unfold login, answer, try_catch, bind.
    rewrite Hparse, user_findUnique_email_up by done.
    by rewrite Hfound, Hpw, String.eqb_refl.
  - destruct (login_reads_only amb req w) as [Husers _].
    remember (serve PostLogin amb req w).1 as w1 eqn:Hw1.
    rewrite (authenticated_serve _ amb' req' (User.id usr))
      by (done || by eapply issued_token_authenticates).
    cbn [handler]. unfold me, answer, bind, user_findUnique_id.
    cbn [user set_user userId]. rewrite prisma_up by done.
    cbn. rewrite Husers, Hrow. unfold me_json. by rewrite He.
Qed.

(** *** Storage keys *)

Lemma digits_no_dash (d : Decimal.uint) : has_char "-" (NilEmpty.string_of_uint d) = false.
Proof. induction d; cbn; done. Qed.

Lemma decimal_no_dash (n : N) : has_char "-" (decimal n) = false.
Proof.
  unfold decimal, NilZero.string_of_uint.
  destruct (N.to_uint n) eqn:Hd; try (rewrite <- Hd; apply digits_no_dash). done.
Qed.

Lemma decimal_inj (n n' : N) : decimal n = decimal n' -> n = n'.
Proof.
  assert (Hnonnil : forall m, N.to_uint m <> Decimal.Nil).
  { intros [|p]; [done|]. apply DecimalPos.Unsigned.to_uint_nonnil. }
  unfold decimal. intros Heq. apply DecimalN.Unsigned.to_uint_inj.
  pose proof (NilZero.usu _ (Hnonnil n)) as Hn.
  pose proof (NilZero.usu _ (Hnonnil n')) as Hn'.
  rewrite Heq in Hn. congruence.
Qed.

(** The first dash of a key ends its first piece. *)
Lemma split_at_dash (a : string) :
  forall a' b b', has_char "-" a = false -> has_char "-" a' = false ->
    a ++ "-" ++ b = a' ++ "-" ++ b' -> a = a' /\ b = b'.
Proof.
  induction a as [|c a IH]; intros [|c' a'] b b' Ha Ha' Heq.
  - by injection Heq.
  - injection Heq as <- _. cbn in Ha'. done.
  - injection Heq as -> _. cbn in Ha. done.
  - injection Heq as <- Heq. cbn in Ha, Ha'.
    apply orb_false_iff in Ha as [_ Ha]. apply orb_false_iff in Ha' as [_ Ha'].
    destruct (IH a' b b' Ha Ha' Heq) as [-> ->]. done.
Qed.

(** The storage key of an upload tells the clock's reading and the file's
    original name apart: two uploads get the same key only when both the
    millisecond and the name are the same, whatever dashes and digits the
    name contains. *)
Theorem upload_key_unique (amb amb' : Ambient) (f f' : MulterFile) :
  upload_key amb f = upload_key amb' f' <->
  now amb = now amb' /\ originalname f = originalname f'.
Proof.
  unfold upload_key. split.
  - intros Heq. apply (inj (String.append "uploads/")) in Heq.
    apply split_at_dash in Heq as [Hn Hname]; try apply decimal_no_dash.
    split; [by apply decimal_inj | done].
  - by intros [-> ->].
Qed.

End Requests.

(** ** The login page *)

Section Client.
Context {P : Platform}.
Variable trim : string -> string.

(** With the e-mail field or the password field empty, submitting the
    form sends nothing, whatever the network is: the page shows that both
    are required, stops loading, and the browser is untouched. *)
Theorem login_page_requires_both_fields
  {S : Type} (post : json -> S -> S * option Response)
  (page : LoginPage.t) (b : Browser) (net : S) :
  LoginPage.email page = "" \/ LoginPage.password page = "" ->
  handleSubmit trim post page b net =
    (LoginPage.mk (LoginPage.email page) (LoginPage.password page)
                  (JStr "Email and password are required") false,
     b, net).
Proof.
  intros Hempty. unfold handleSubmit, show_error.
  destruct Hempty as [He | Hp].
  - by rewrite He.
  - rewrite Hp at 1. cbn [truthy String.eqb negb]. by rewrite orb_true_r.
Qed.

(** With both fields filled in and an answer whose status is not from 200
    to 299, the page shows the [message] of the answer's body when that is
    a non-empty string, and never stores a token or leaves the page; when
    no answer arrives it shows the fallback message. *)
Theorem login_page_shows_server_message
  {S : Type} (post : json -> S -> S * option Response)
  (page : LoginPage.t) (b : Browser) (net net' : S) :
  LoginPage.email page <> "" -> LoginPage.password page <> "" ->
  (forall r m,
     post (JObj [("email", JStr (LoginPage.email page));
                 ("password", JStr (LoginPage.password page))]) net = (net', Some r) ->
     (status r < 200 \/ 300 <= status r)%nat ->
     get_field "message" (body r) = Some (JStr m) -> m <> "" ->
     handleSubmit trim post page b net = (show_error page (JStr m), b, net')) /\
  (post (JObj [("email", JStr (LoginPage.email page));
               ("password", JStr (LoginPage.password page))]) net = (net', None) ->
   handleSubmit trim post page b net =
     (show_error page (JStr "Login failed. Please try again."), b, net')).
Proof.
  intros He Hp. unfold handleSubmit.
  rewrite (truthy_nonempty _ He), (truthy_nonempty _ Hp). cbn [negb orb]. split.
  - intros r m Hpost Hstatus Hm Hne. rewrite Hpost. unfold axios_settle.
    assert (Hout : (200 <=? status r)%nat && (status r <? 300)%nat = false).
    { apply andb_false_iff. destruct Hstatus; [left | right].
      - by apply Nat.leb_gt.
      - by apply Nat.ltb_ge. }
    rewrite Hout. unfold rejection_message. rewrite Hm. cbn [js_truthy].
    by rewrite (truthy_nonempty _ Hne).
  - intros Hpost. by rewrite Hpost.
Qed.

(** The login page against the backend, with both fields filled in and
    the database answering.  An address the schema refuses shows the
    format message; an unknown address or a wrong password shows the
    same "Invalid email or password"; and in both cases nothing is stored
    and the page stays.  The right password stores the trimmed token
    under [token], pushes the dashboard route and shows no error,
    provided the token is not empty. *)
Theorem login_page_against_server
  (amb : Ambient) (page : LoginPage.t) (b : Browser) (w : World) :
  LoginPage.email page <> "" -> LoginPage.password page <> "" ->
  db_fault amb = None ->
  (is_email (LoginPage.email page) = false ->
   (handleSubmit trim (post_login amb) page b w).1 =
     (show_error page (JStr "Invalid email or password format"), b)) /\
  (is_email (LoginPage.email page) = true ->
   (forall usr, user_by_email (LoginPage.email page) (users w) = Some usr ->
                User.password usr <> LoginPage.password page) ->
   (handleSubmit trim (post_login amb) page b w).1 =
     (show_error page (JStr "Invalid email or password"), b)) /\
  (forall usr,
     is_email (LoginPage.email page) = true ->
     user_by_email (LoginPage.email page) (users w) = Some usr ->
     User.password usr = LoginPage.password page ->
     jwt_sign (User.id usr) (now amb) JWT_SECRET <> "" ->
     (handleSubmit trim (post_login amb) page b w).1 =
       (show_error page (JStr ""),
        mkBrowser (<["token" := trim (jwt_sign (User.id usr) (now amb) JWT_SECRET)]>
                     (localStorage b))
                  (pushed b ++ ["/dashboard"]))).
Proof.
  intros He Hp Hup. unfold handleSubmit, post_login, serve.
  rewrite (truthy_nonempty _ He), (truthy_nonempty _ Hp).
  cbn [negb orb protected handler]. unfold login, answer, try_catch, bind.
  unfold signinSchema. cbn [req_body is_object get_field assoc String.eqb Ascii.eqb
                            Bool.eqb zod_string].
  split; [|split].
  - intros Hbad. by rewrite Hbad.
  - intros Hgood Hwrong. rewrite Hgood, user_findUnique_email_up by done.
    cbn [signin_email signin_password].
    destruct (user_by_email _ _) as [usr|] eqn:Hfound; [|done].
    by rewrite (proj2 (String.eqb_neq _ _) (Hwrong usr eq_refl)).
  - intros usr Hgood Hfound Hpw Htoken.
    rewrite Hgood, user_findUnique_email_up by done.
    cbn [signin_email signin_password]. rewrite Hfound, Hpw, String.eqb_refl.
    cbn. by rewrite (truthy_nonempty _ Htoken).
Qed.

End Client.

(** ** The properties on the sample data *)

Section Samples.
#[local] Existing Instance sample_platform.

Lemma authenticateToken_contract_witness :
  protected GetMe = true /\
  serve GetMe db_down (request None "" JNull) sample_world =
    (sample_world, fail 401 "Authentication required") /\
  serve GetMe db_down (request (Some "Basic s3cret.u1") "" JNull) sample_world =
    (sample_world, fail 401 "Authentication required") /\
  serve GetMe db_down (request (Some "Bearer ") "" JNull) sample_world =
    (sample_world, fail 401 "Authentication required") /\
  serve GetMe db_down (request (Some "Bearer forged.u1") "" JNull) sample_world =
    (sample_world, fail 403 "Invalid or expired token") /\
  authenticateToken (request as_ann "d1" JNull) =
    inr (set_user (request as_ann "d1" JNull) (mkIdentity "u1")).
Proof.
  split; [reflexivity|].
  pose proof (fun req => authenticateToken_contract (P := sample_platform)
                           GetMe db_down req sample_world eq_refl) as H.
  split; [|split; [|split; [|split]]].
  - apply (proj1 (H (request None "" JNull))). by left.
  - apply (proj1 (H (request (Some "Basic s3cret.u1") "" JNull))).
    right. by eexists.
  - by apply (proj2 (H (request (Some "Bearer ") "" JNull))
                "" "" eq_refl eq_refl (or_introl eq_refl)).
  - by apply (proj2 (H (request (Some "Bearer forged.u1") "" JNull))
                "forged.u1" "" eq_refl eq_refl (or_introl eq_refl)).
  - destruct (proj2 (H (request as_ann "d1" JNull))
                "s3cret.u1" "" eq_refl eq_refl (or_introl eq_refl)) as (_ & _ & Hok).
    destruct (Hok "u1") as (req' & Hreq & Hu & Ha & Hi & Hb & Hf & _); [done|done|].
    rewrite Hreq. f_equal. destruct req'; cbn in *. by subst.
Defined.

Lemma stranger_cannot_touch_demo_witness :
  demos sample_world !! "d1" = Some ann_demo /\
  Demo.userId ann_demo = "u1" /\ "u2" <> "u1" /\
  authenticated_as (request as_bob "d1" demo_body) "u2" /\
  (serve GetDemo calm (request as_bob "d1" demo_body) sample_world).2 =
    fail 404 "Demo not found" /\
  (serve PutDemo calm (request as_bob "d1" demo_body) sample_world).2 =
    fail 404 "Demo not found" /\
  (serve DeleteDemo calm (request as_bob "d1" demo_body) sample_world).2 =
    fail 404 "Demo not found" /\
  same_tables sample_world (serve GetDemo calm (request as_bob "d1" demo_body) sample_world).1 /\
  same_tables sample_world (serve PutDemo calm (request as_bob "d1" demo_body) sample_world).1 /\
  same_tables sample_world
    (serve DeleteDemo calm (request as_bob "d1" demo_body) sample_world).1.
Proof.
  assert (Hne : "u2" <> "u1") by discriminate.
  destruct (stranger_cannot_touch_demo (P := sample_platform) calm
              (request as_bob "d1" demo_body) sample_world "d1" "u1" "u2" ann_demo
              eq_refl eq_refl Hne eq_refl eq_refl)
    as ((Hg1 & Hg2) & (Hp1 & Hp2) & (Hd1 & Hd2)).
  split; [reflexivity|]. split; [reflexivity|]. split; [exact Hne|].
  split; [reflexivity|]. split; [exact (Hg2 eq_refl)|]. split; [exact (Hp2 eq_refl)|].
  split; [exact (Hd2 eq_refl)|]. split; [exact Hg1|]. split; [exact Hp1 | exact Hd1].
Defined.

(** C1 as stated fails: Bob's update of Ann's demo with an empty body is
    answered 400, not 404. *)
Lemma stranger_update_invalid_body_is_400 :
  demos sample_world !! "d1" = Some ann_demo /\
  Demo.userId ann_demo = "u1" /\ "u2" <> "u1" /\
  authenticated_as (request as_bob "d1" (JObj [])) "u2" /\
  db_fault calm = None /\
  (serve PutDemo calm (request as_bob "d1" (JObj [])) sample_world).2 =
    fail 400 "Invalid demo data" /\
  status (serve PutDemo calm (request as_bob "d1" (JObj [])) sample_world).2 <> 404%nat.
Proof. repeat split; try reflexivity; discriminate. Qed.

Lemma get_demo_counts_one_view_witness :
  authenticated_as (request as_ann "d1" JNull) "u1" /\ db_fault calm = None /\
  (serve GetDemo calm (request as_ann "d1" JNull) sample_world).2 = ok (demo_json ann_demo) /\
  demos (serve GetDemo calm (request as_ann "d1" JNull) sample_world).1 =
    <["d1" := add_views 1 ann_demo]> (demos sample_world) /\
  Demo.views (add_views 1 ann_demo) = 8%Z /\
  (serve GetDemo calm (request as_ann "d9" JNull) sample_world).2 = fail 404 "Demo not found" /\
  same_tables sample_world (serve GetDemo calm (request as_ann "d9" JNull) sample_world).1.
Proof.
  destruct (get_demo_counts_one_view (P := sample_platform) calm
              (request as_ann "d1" JNull) sample_world "u1" eq_refl eq_refl) as [Hown _].
  destruct (Hown ann_demo eq_refl eq_refl) as (Hr & Hd & Hv & _).
  destruct (get_demo_counts_one_view (P := sample_platform) calm
              (request as_ann "d9" JNull) sample_world "u1" eq_refl eq_refl) as [_ Hmiss].
  destruct Hmiss as [Hr' Hd']; [intros D HD; vm_compute in HD; discriminate|].
  split; [reflexivity|]. split; [reflexivity|]. split; [exact Hr|]. split; [exact Hd|].
  split; [exact Hv|]. split; [exact Hr' | exact Hd'].
Defined.

Lemma login_outcomes_witness :
  signinSchema (credentials "a@x.com" "p") = Some (mkSignin "a@x.com" "p") /\
  db_fault calm = None /\
  (serve PostLogin calm (request None "" (credentials "a@x.com" "p")) sample_world).2 =
    ok (JObj [("token", JStr "s3cret.u1")]) /\
  (serve PostLogin calm (request None "" (credentials "z@x.com" "p")) sample_world).2 =
    fail 401 "Invalid email or password" /\
  (serve PostLogin calm (request None "" (credentials "a@x.com" "P")) sample_world).2 =
    fail 401 "Invalid email or password" /\
  (serve PostLogin calm (request None "" (credentials "z@x.com" "p")) sample_world).2 =
    (serve PostLogin calm (request None "" (credentials "a@x.com" "P")) sample_world).2.
Proof.
  pose proof (fun e p => login_outcomes (P := sample_platform) calm
                           (request None "" (credentials e p)) sample_world
                           (mkSignin e p)) as H.
  destruct (H "a@x.com" "p" eq_refl eq_refl) as (Hok & _).
  destruct (H "z@x.com" "p" eq_refl eq_refl) as (_ & Hnone & _ & Hsame).
  destruct (H "a@x.com" "P" eq_refl eq_refl) as (_ & _ & Hwrong & _).
  assert (Hpw : User.password ann <> "P") by discriminate.
  split; [reflexivity|]. split; [reflexivity|].
  split; [exact (Hok ann eq_refl eq_refl)|]. split; [exact (Hnone eq_refl)|].
  split; [exact (Hwrong ann eq_refl Hpw)|].
  exact (Hsame calm (request None "" (credentials "a@x.com" "P")) sample_world
               (mkSignin "a@x.com" "P") ann eq_refl eq_refl eq_refl eq_refl Hpw).
Defined.

Lemma update_demo_overwrites_witness :
  authenticated_as (request as_ann "d1" demo_body) "u1" /\ db_fault calm = None /\
  demoSchema demo_body = Some demo_body_parsed /\
  demos sample_world !! "d1" = Some ann_demo /\ Demo.userId ann_demo = "u1" /\
  exists D',
    (serve PutDemo calm (request as_ann "d1" demo_body) sample_world).2 = ok (demo_json D') /\
    Demo.title D' = "Tour 2" /\ Demo.content D' = "frames2" /\
    Demo.thumbnail D' = Some "t.png" /\ Demo.views D' = 7%Z.
Proof.
  destruct (update_demo_overwrites (P := sample_platform) calm
              (request as_ann "d1" demo_body) sample_world "u1" ann_demo demo_body_parsed
              eq_refl eq_refl eq_refl eq_refl eq_refl)
    as (D' & Hr & _ & Ht & _ & _ & Hc & Hth & _ & _ & _ & Hv & _).
  split; [reflexivity|]. split; [reflexivity|]. split; [reflexivity|].
  split; [reflexivity|]. split; [reflexivity|].
  exists D'. split; [exact Hr|]. split; [exact Ht|]. split; [exact Hc|].
  split; [exact Hth | exact Hv].
Defined.

(** C4 as stated fails: Ann's update with a payload that leaves the
    thumbnail out passes the schema, and the stored thumbnail stays. *)
Lemma update_keeps_absent_thumbnail :
  authenticated_as (request as_ann "d1" demo_body) "u1" /\
  demoSchema demo_body = Some demo_body_parsed /\
  get_field "thumbnail" demo_body = None /\
  data_thumbnail demo_body_parsed = None /\
  demos sample_world !! "d1" = Some ann_demo /\
  Demo.thumbnail <$>
    demos (serve PutDemo calm (request as_ann "d1" demo_body) sample_world).1 !! "d1" =
    Some (Some "t.png").
Proof. repeat split; reflexivity. Qed.



Lemma signup_duplicate_email_witness :
  signupSchema (signup_body "Ann" "a@x.com" "p" "p") = Some (mkSignup "Ann" "a@x.com" "p") /\
  registered "a@x.com" sample_world /\ db_fault calm = None /\
  (serve PostSignup calm (request None "" (signup_body "Ann" "a@x.com" "p" "p"))
         sample_world).2 = fail 411 "Email already taken" /\
  same_tables sample_world
    (serve PostSignup calm (request None "" (signup_body "Ann" "a@x.com" "p" "p"))
           sample_world).1.
Proof.
  assert (Hreg : registered "a@x.com" sample_world) by (by exists "u1", ann).
  destruct (signup_duplicate_email (P := sample_platform) calm
              (request None "" (signup_body "Ann" "a@x.com" "p" "p")) sample_world
              (mkSignup "Ann" "a@x.com" "p") eq_refl eq_refl Hreg eq_refl)
    as [Hr Ht].
  split; [reflexivity|]. split; [exact Hreg|]. split; [reflexivity|].
  split; [exact Hr | exact Ht].
Defined.

(** C6 as stated fails: with a registered address, a two-letter name or
    a confirmation that differs gets the validation answers, not the
    answer for the duplicate address. *)
Lemma signup_duplicate_email_not_always_conflict :
  registered "a@x.com" sample_world /\
  (serve PostSignup calm (request None "" (signup_body "Al" "a@x.com" "p" "p"))
         sample_world).2 = fail 411 "Invalid input data" /\
  (serve PostSignup calm (request None "" (signup_body "Ann" "a@x.com" "p" "q"))
         sample_world).2 = fail 411 "Passwords do not match" /\
  fail 411 "Invalid input data" <> fail 411 "Email already taken" /\
  fail 411 "Passwords do not match" <> fail 411 "Email already taken".
Proof.
  split; [by exists "u1", ann|].
  repeat split; try reflexivity; discriminate.
Qed.

Lemma upload_image_outcomes_witness :
  authenticated_as (upload_request as_ann (Some cat_png)) "u1" /\
  serve PostUploadImage calm (upload_request as_ann None) sample_world =
    (sample_world, fail 400 "No image file provided") /\
  serve (P := unconfigured_platform) PostUploadImage calm
        (upload_request as_ann (Some cat_png)) sample_world =
    (sample_world, fail 500 "R2 bucket name not configured") /\
  (serve PostUploadImage calm (upload_request as_ann (Some cat_png)) sample_world).2 =
    ok (JObj [("url",
               JStr "https://pub-3f302ea423334407b3183fceb59dece7.r2.dev/uploads/5000-cat.png")]) /\
  bucket (serve PostUploadImage calm (upload_request as_ann (Some cat_png)) sample_world).1 =
    <[("arcade", "uploads/5000-cat.png") :=
        mkObject "arcade" "uploads/5000-cat.png" (buffer cat_png) "image/png"]> ∅ /\
  status (serve PostUploadImage r2_down (upload_request as_ann (Some cat_png))
                sample_world).2 = 500%nat /\
  (serve PostUploadImage r2_down (upload_request as_ann (Some cat_png)) sample_world).1 =
    sample_world.
Proof.
  assert (Hset : R2_BUCKET_NAME (P := sample_platform) <> "") by discriminate.
  destruct (upload_image_outcomes (P := sample_platform) calm
              (upload_request as_ann None) sample_world "u1" eq_refl) as (Hnofile & _).
  destruct (upload_image_outcomes (P := unconfigured_platform) calm
              (upload_request as_ann (Some cat_png)) sample_world "u1" eq_refl)
    as (_ & Hunset & _).
  destruct (upload_image_outcomes (P := sample_platform) calm
              (upload_request as_ann (Some cat_png)) sample_world "u1" eq_refl)
    as (_ & _ & Hput & _).
  destruct (upload_image_outcomes (P := sample_platform) r2_down
              (upload_request as_ann (Some cat_png)) sample_world "u1" eq_refl)
    as (_ & _ & _ & Hthrow).
  destruct (Hput cat_png eq_refl Hset eq_refl) as (Hurl & Hbucket & _).
  destruct (Hthrow cat_png "socket hang up" eq_refl Hset eq_refl) as (Hstatus & _ & Hworld).
  split; [reflexivity|]. split; [exact (Hnofile eq_refl)|].
  split; [exact (Hunset cat_png eq_refl eq_refl)|].
  split; [exact Hurl|]. split; [exact Hbucket|]. split; [exact Hstatus | exact Hworld].
Defined.

Lemma create_demo_inserts_one_row_witness :
  authenticated_as (request as_ann "" demo_body) "u1" /\
  demoSchema demo_body = Some demo_body_parsed /\
  db_fault calm = None /\ is_Some (users sample_world !! "u1") /\
  demos sample_world !! new_id calm = None /\
  (serve PostDemos calm (request as_ann "" demo_body) sample_world).2 =
    mkResponse 201
      (demo_json (Demo.mk "d2" "Tour 2" "Shorter" "video" "frames2" None None false 0
                          "u1" 5000)) /\
  size (demos (serve PostDemos calm (request as_ann "" demo_body) sample_world).1) = 2%nat /\
  prisma_log (serve PostDemos calm (request as_ann "" demo_body) sample_world).1 =
    [DemoCreate (demo_input demo_body) 0 "u1"].
Proof.
  assert (Hwho : is_Some (users sample_world !! "u1")) by (by exists ann).
  destruct (create_demo_inserts_one_row (P := sample_platform) calm
              (request as_ann "" demo_body) sample_world "u1" demo_body_parsed
              eq_refl eq_refl eq_refl Hwho eq_refl)
    as (Hr & _ & Hsize & _ & _ & _ & Hlog).
  split; [reflexivity|]. split; [reflexivity|]. split; [reflexivity|].
  split; [exact Hwho|]. split; [reflexivity|].
  split; [exact Hr|]. split; [exact Hsize | exact Hlog].
Defined.

Lemma create_demo_ignores_schema_default_witness :
  authenticated_as (request as_ann "" demo_body) "u1" /\
  demoSchema demo_body = Some demo_body_parsed /\
  get_field "isPublic" demo_body = None /\
  data_isPublic demo_body_parsed = false /\
  exists input,
    prisma_log (serve PostDemos calm (request as_ann "" demo_body) sample_world).1 =
      [DemoCreate input 0 "u1"] /\
    DemoInput.isPublic input = None.
Proof.
  destruct (create_demo_ignores_schema_default (P := sample_platform) calm
              (request as_ann "" demo_body) sample_world "u1" demo_body_parsed
              eq_refl eq_refl eq_refl)
    as (Hparsed & Hinput & _).
  split; [reflexivity|]. split; [reflexivity|]. split; [reflexivity|].
  split; [exact Hparsed | exact Hinput].
Defined.

End Samples.

(** ** More properties on the sample data *)

Section MoreSamples.
#[local] Existing Instance sample_platform.

Lemma sample_world_consistent : consistent sample_world.
Proof.
  split; [|split].
  - intros i u Hu. cbn in Hu.
    apply lookup_insert_Some in Hu as [[<- <-]|[_ Hu]]; [done|].
    apply lookup_insert_Some in Hu as [[<- <-]|[_ Hu]]; [done|].
    by rewrite lookup_empty in Hu.
  - intros i j u v Hi Hj He. cbn in Hi, Hj.
    apply lookup_insert_Some in Hi as [[<- <-]|[_ Hi]];
      apply lookup_insert_Some in Hj as [[<- <-]|[_ Hj]]; try done.
    + apply lookup_insert_Some in Hj as [[<- <-]|[_ Hj]]; [done|].
      by rewrite lookup_empty in Hj.
    + apply lookup_insert_Some in Hi as [[<- <-]|[_ Hi]]; [done|].
      by rewrite lookup_empty in Hi.
    + apply lookup_insert_Some in Hi as [[<- <-]|[_ Hi]];
        apply lookup_insert_Some in Hj as [[<- <-]|[_ Hj]]; try done;
        by rewrite lookup_empty in *.
  - intros i d Hd. cbn in Hd.
    apply lookup_insert_Some in Hd as [[<- <-]|[_ Hd]]; [by split; [|exists ann]|].
    by rewrite lookup_empty in Hd.
Qed.

Lemma demos_of_others_untouched_witness :
  demos sample_world !! "d1" = Some ann_demo /\
  caller PutDemo (request as_bob "d1" demo_body) <> Some (Demo.userId ann_demo) /\
  demos (serve PutDemo calm (request as_bob "d1" demo_body) sample_world).1 !! "d1" =
    Some ann_demo.
Proof.
  assert (Hother : caller PutDemo (request as_bob "d1" demo_body)
                   <> Some (Demo.userId ann_demo)) by discriminate.
  split; [reflexivity|]. split; [exact Hother|].
  exact (demos_of_others_untouched (P := sample_platform) PutDemo calm
           (request as_bob "d1" demo_body) sample_world "d1" ann_demo eq_refl Hother).
Defined.


Lemma demo_columns_fixed_witness :
  demos sample_world !! "d1" = Some ann_demo /\
  demos (serve GetDemo calm (request as_ann "d1" JNull) sample_world).1 !! "d1" =
    Some (add_views 1 ann_demo) /\
  Demo.userId (add_views 1 ann_demo) = Demo.userId ann_demo /\
  (Demo.views (add_views 1 ann_demo) = Demo.views ann_demo \/
   Demo.views (add_views 1 ann_demo) = (Demo.views ann_demo + 1)%Z /\ GetDemo = GetDemo /\
   caller GetDemo (request as_ann "d1" JNull) = Some (Demo.userId ann_demo)).
Proof.
  destruct (demo_columns_fixed (P := sample_platform) GetDemo calm
              (request as_ann "d1" JNull) sample_world "d1" ann_demo (add_views 1 ann_demo)
              eq_refl eq_refl) as (_ & Hown & _ & Hviews).
  split; [reflexivity|]. split; [reflexivity|]. split; [exact Hown | exact Hviews].
Defined.

Lemma database_down_answers_500_witness :
  db_fault db_down = Some "Can't reach database server" /\
  authenticated_as (request as_ann "d1" demo_body) "u1" /\
  serve DeleteDemo db_down (request as_ann "d1" demo_body) sample_world =
    ({| users := users sample_world; demos := demos sample_world; bucket := ∅;
        prisma_log := [DemoFindFirst "d1" "u1"] |},
     fail 500 "Internal server error") /\
  (serve PutDemo db_down (request as_ann "d1" demo_body) sample_world).2 =
    fail 500 "Internal server error" /\
  (serve PostSignup db_down (request None "" (signup_body "Carol" "c@x.com" "r" "r"))
         sample_world).2 = fail 500 "Internal server error".
Proof.
  assert (Hdemo : is_Some (demoSchema demo_body)) by (by eexists).
  assert (Hsignup : is_Some (signupSchema (signup_body "Carol" "c@x.com" "r" "r")))
    by (by eexists).
  destruct (database_down_answers_500 (P := sample_platform) db_down
              (request as_ann "d1" demo_body) sample_world "u1" _ eq_refl) as [Hauth _].
  destruct (Hauth eq_refl) as (_ & _ & _ & Hdel & Hpayload).
  destruct (Hpayload Hdemo) as [_ Hput].
  destruct (database_down_answers_500 (P := sample_platform) db_down
              (request None "" (signup_body "Carol" "c@x.com" "r" "r")) sample_world
              "" _ eq_refl) as [_ Hup].
  split; [reflexivity|]. split; [reflexivity|]. split; [exact Hdel|].
  split; [by rewrite Hput | by rewrite (Hup Hsignup eq_refl)].
Defined.

Lemma signup_creates_user_witness :
  signupSchema (signup_body "Carol" "c@x.com" "r" "r") = Some (mkSignup "Carol" "c@x.com" "r") /\
  ~ registered "c@x.com" sample_world /\ users sample_world !! "u3" = None /\
  (serve PostSignup signing_up (request None "" (signup_body "Carol" "c@x.com" "r" "r"))
         sample_world).2 =
    ok (JObj [("message", JStr "User created successfully"); ("token", JStr "s3cret.u3")]) /\
  users (serve PostSignup signing_up (request None "" (signup_body "Carol" "c@x.com" "r" "r"))
               sample_world).1 = <["u3" := carol]> (users sample_world).
Proof.
  assert (Hnew : ~ registered "c@x.com" sample_world)
    by (by apply not_found_not_registered).
  destruct (signup_creates_user (P := sample_platform) signing_up
              (request None "" (signup_body "Carol" "c@x.com" "r" "r")) sample_world
              (mkSignup "Carol" "c@x.com" "r") eq_refl eq_refl Hnew eq_refl eq_refl)
    as (Hr & Hu & _).
  split; [reflexivity|]. split; [exact Hnew|]. split; [reflexivity|].
  split; [exact Hr | exact Hu].
Defined.

Lemma signup_rejects_before_store_witness :
  serve PostSignup db_down (request None "" (signup_body "Al" "a@x.com" "p" "p")) sample_world =
    (sample_world, fail 411 "Invalid input data") /\
  serve PostSignup db_down (request None "" (signup_body "Carol" "c@x.com" "r" "R"))
        sample_world = (sample_world, fail 411 "Passwords do not match").
Proof.
  split.
  - exact (proj1 (signup_rejects_before_store (P := sample_platform) db_down
                    (request None "" (signup_body "Al" "a@x.com" "p" "p")) sample_world)
                 eq_refl).
  - assert (Hsome : is_Some (signupSchema (signup_body "Carol" "c@x.com" "r" "R")))
      by (by eexists).
    exact (proj2 (signup_rejects_before_store (P := sample_platform) db_down
                    (request None "" (signup_body "Carol" "c@x.com" "r" "R")) sample_world)
                 Hsome eq_refl).
Defined.

(** A name of two characters is refused, however many bytes they take. *)
Lemma signup_counts_code_units :
  String.length "éa" = 3%nat /\
  serve PostSignup calm (request None "" (signup_body "éa" "e@x.com" "p" "p")) sample_world =
    (sample_world, fail 411 "Invalid input data").
Proof. split; reflexivity. Qed.

Lemma signup_then_login_witness :
  ~ registered "c@x.com" sample_world /\
  (serve PostLogin calm (request None "" (credentials "c@x.com" "r"))
         (serve PostSignup signing_up
                (request None "" (signup_body "Carol" "c@x.com" "r" "r")) sample_world).1).2 =
    ok (JObj [("token", JStr "s3cret.u3")]).
Proof.
  assert (Hnew : ~ registered "c@x.com" sample_world)
    by (by apply not_found_not_registered).
  split; [exact Hnew|].
  exact (signup_then_login (P := sample_platform) signing_up calm
           (request None "" (signup_body "Carol" "c@x.com" "r" "r"))
           (request None "" (credentials "c@x.com" "r")) sample_world
           (mkSignup "Carol" "c@x.com" "r") eq_refl eq_refl Hnew eq_refl eq_refl
           eq_refl eq_refl).
Defined.

Lemma login_rejects_malformed_witness :
  signinSchema (credentials "not an address" "p") = None /\
  serve PostLogin db_down (request None "" (credentials "not an address" "p")) sample_world =
    (sample_world, fail 400 "Invalid email or password format").
Proof.
  split; [reflexivity|].
  exact (login_rejects_malformed (P := sample_platform) db_down
           (request None "" (credentials "not an address" "p")) sample_world eq_refl).
Defined.

Lemma login_database_down_witness :
  signinSchema (credentials "a@x.com" "p") = Some (mkSignin "a@x.com" "p") /\
  (serve PostLogin db_down (request None "" (credentials "a@x.com" "p")) sample_world).2 =
    mkResponse 500 (JObj [("message", JStr "Internal server error");
                          ("details", JStr "Can't reach database server")]) /\
  (serve PostLogin
         {| now := 5000; new_id := "d2"; db_fault := Some ""; r2_fault := None |}
         (request None "" (credentials "a@x.com" "p")) sample_world).2 =
    mkResponse 500 (JObj [("message", JStr "Internal server error");
                          ("details", JStr "Unknown error occurred")]).
Proof.
  split; [reflexivity|]. split.
  - exact (proj1 (login_database_down (P := sample_platform) db_down
                    (request None "" (credentials "a@x.com" "p")) sample_world
                    (mkSignin "a@x.com" "p") _ eq_refl eq_refl)).
  - exact (proj1 (login_database_down (P := sample_platform)
                    {| now := 5000; new_id := "d2"; db_fault := Some ""; r2_fault := None |}
                    (request None "" (credentials "a@x.com" "p")) sample_world
                    (mkSignin "a@x.com" "p") _ eq_refl eq_refl)).
Defined.

Lemma me_profile_witness :
  authenticated_as (request as_ann "" JNull) "u1" /\
  (serve GetMe calm (request as_ann "" JNull) sample_world).2 =
    ok (JObj [("user", JObj [("id", JStr "u1"); ("email", JStr "a@x.com");
                             ("createdAt", JDate 1000)])]) /\
  (serve GetMe calm (request as_carol "" JNull) sample_world).2 = fail 404 "User not found".
Proof.
  destruct (me_profile (P := sample_platform) calm (request as_ann "" JNull) sample_world "u1"
              eq_refl eq_refl) as (Hfound & _).
  destruct (me_profile (P := sample_platform) calm (request as_carol "" JNull) sample_world
              "u3" eq_refl eq_refl) as (_ & Hmissing & _).
  split; [reflexivity|]. split; [exact (Hfound ann eq_refl) | exact (Hmissing eq_refl)].
Defined.

Lemma list_demos_own_newest_first_witness :
  authenticated_as (request as_ann "" JNull) "u1" /\ db_fault calm = None /\
  (serve GetDemos calm (request as_ann "" JNull) busy_world).2 =
    ok (JArr [demo_json ann_demo; demo_json ann_old_demo]) /\
  exists found : list Demo.t,
    (serve GetDemos calm (request as_ann "" JNull) busy_world).2 =
      ok (JArr (List.map demo_json found)) /\
    (bob_demo ∈ found <->
     exists i, demos busy_world !! i = Some bob_demo /\ Demo.userId bob_demo = "u1").
Proof.
  destruct (list_demos_own_newest_first (P := sample_platform) calm
              (request as_ann "" JNull) busy_world "u1" eq_refl eq_refl)
    as (found & Hr & Hin & _).
  split; [reflexivity|]. split; [reflexivity|]. split; [reflexivity|].
  exists found. split; [exact Hr | exact (Hin bob_demo)].
Defined.

Lemma delete_demo_by_owner_witness :
  authenticated_as (request as_ann "d1" JNull) "u1" /\ db_fault calm = None /\
  (serve DeleteDemo calm (request as_ann "d1" JNull) busy_world).2 =
    ok (message_only "Demo deleted successfully") /\
  demos (serve DeleteDemo calm (request as_ann "d1" JNull) busy_world).1 =
    delete "d1" (demos busy_world) /\
  (serve DeleteDemo calm (request as_ann "d9" JNull) busy_world).2 =
    fail 404 "Demo not found".
Proof.
  destruct (delete_demo_by_owner (P := sample_platform) calm (request as_ann "d1" JNull)
              busy_world "u1" eq_refl eq_refl) as [Hown _].
  destruct (Hown ann_demo eq_refl eq_refl) as (Hr & Hd & _).
  destruct (delete_demo_by_owner (P := sample_platform) calm (request as_ann "d9" JNull)
              busy_world "u1" eq_refl eq_refl) as [_ Hmiss].
  destruct Hmiss as [Hr' _]; [intros D HD; vm_compute in HD; discriminate|].
  split; [reflexivity|]. split; [reflexivity|]. split; [exact Hr|].
  split; [exact Hd | exact Hr'].
Defined.

Lemma deleted_demo_is_gone_witness :
  demos busy_world !! "d1" = Some ann_demo /\ Demo.userId ann_demo = "u1" /\
  authenticated_as (request as_bob "d1" JNull) "u2" /\
  (serve GetDemo calm (request as_ann "d1" JNull)
         (serve DeleteDemo calm (request as_ann "d1" JNull) busy_world).1).2 =
    fail 404 "Demo not found" /\
  (serve DeleteDemo calm (request as_bob "d1" JNull)
         (serve DeleteDemo calm (request as_ann "d1" JNull) busy_world).1).2 =
    fail 404 "Demo not found".
Proof.
  destruct (deleted_demo_is_gone (P := sample_platform) calm calm
              (request as_ann "d1" JNull) (request as_ann "d1" JNull) busy_world
              "u1" "u1" ann_demo eq_refl eq_refl eq_refl eq_refl eq_refl eq_refl eq_refl)
    as [Hget _].
  destruct (deleted_demo_is_gone (P := sample_platform) calm calm
              (request as_ann "d1" JNull) (request as_bob "d1" JNull) busy_world
              "u1" "u2" ann_demo eq_refl eq_refl eq_refl eq_refl eq_refl eq_refl eq_refl)
    as [_ Hdel].
  split; [reflexivity|]. split; [reflexivity|]. split; [reflexivity|].
  split; [exact Hget | exact Hdel].
Defined.

Lemma created_demo_can_be_read_witness :
  authenticated_as (request as_ann "" demo_body) "u1" /\
  demoSchema demo_body = Some demo_body_parsed /\
  is_Some (users sample_world !! "u1") /\ demos sample_world !! new_id calm = None /\
  authenticated_as (request as_ann "d2" JNull) "u1" /\
  (serve GetDemo calm (request as_ann "d2" JNull)
         (serve PostDemos calm (request as_ann "" demo_body) sample_world).1).2 =
    ok (demo_json (Demo.mk "d2" "Tour 2" "Shorter" "video" "frames2" None None false 0
                           "u1" 5000)) /\
  demos (serve GetDemo calm (request as_ann "d2" JNull)
               (serve PostDemos calm (request as_ann "" demo_body) sample_world).1).1
    !! "d2" =
    Some (Demo.mk "d2" "Tour 2" "Shorter" "video" "frames2" None None false 1 "u1" 5000).
Proof.
  assert (Hwho : is_Some (users sample_world !! "u1")) by (by exists ann).
  destruct (created_demo_can_be_read (P := sample_platform) calm calm
              (request as_ann "" demo_body) (request as_ann "d2" JNull) sample_world "u1"
              demo_body_parsed eq_refl eq_refl eq_refl Hwho eq_refl eq_refl eq_refl eq_refl)
    as (_ & Hget & _ & Hstored).
  split; [reflexivity|]. split; [reflexivity|]. split; [exact Hwho|].
  split; [reflexivity|]. split; [reflexivity|]. split; [exact Hget | exact Hstored].
Defined.

Lemma demo_payload_checked_first_witness :
  authenticated_as (request as_bob "d1" (JObj [("title", JStr "")])) "u2" /\
  demoSchema (JObj [("title", JStr "")]) = None /\
  serve PostDemos db_down (request as_bob "d1" (JObj [("title", JStr "")])) sample_world =
    (sample_world, fail 400 "Invalid demo data") /\
  serve PutDemo db_down (request as_bob "d1" (JObj [("title", JStr "")])) sample_world =
    (sample_world, fail 400 "Invalid demo data").
Proof.
  split; [reflexivity|]. split; [reflexivity|].
  exact (demo_payload_checked_first (P := sample_platform) db_down
           (request as_bob "d1" (JObj [("title", JStr "")])) sample_world "u2"
           eq_refl eq_refl).
Defined.

Lemma update_demo_not_found_witness :
  authenticated_as (request as_ann "d9" demo_body) "u1" /\ db_fault calm = None /\
  demoSchema demo_body = Some demo_body_parsed /\
  demos sample_world !! "d9" = None /\
  (serve PutDemo calm (request as_ann "d9" demo_body) sample_world).2 =
    fail 404 "Demo not found" /\
  same_tables sample_world (serve PutDemo calm (request as_ann "d9" demo_body) sample_world).1.
Proof.
  assert (Hnone : forall D, demos sample_world !! params_id (request as_ann "d9" demo_body)
                            = Some D -> Demo.userId D <> "u1")
    by (intros D HD; vm_compute in HD; discriminate).
  split; [reflexivity|]. split; [reflexivity|]. split; [reflexivity|].
  split; [reflexivity|].
  exact (update_demo_not_found (P := sample_platform) calm (request as_ann "d9" demo_body)
           sample_world "u1" demo_body_parsed eq_refl eq_refl eq_refl Hnone).
Defined.

Lemma login_then_me_witness :
  jwt_verify "s3cret.u1" JWT_SECRET = Some "u1" /\
  has_char " " "s3cret.u1" = false /\ consistent sample_world /\
  (serve PostLogin calm (request None "" (credentials "a@x.com" "p")) sample_world).2 =
    ok (JObj [("token", JStr "s3cret.u1")]) /\
  (serve GetMe calm (request (Some "Bearer s3cret.u1") "" JNull)
         (serve PostLogin calm (request None "" (credentials "a@x.com" "p"))
                sample_world).1).2 =
    ok (JObj [("user", JObj [("id", JStr "u1"); ("email", JStr "a@x.com");
                             ("createdAt", JDate 1000)])]).
Proof.
  assert (Hne : jwt_sign (User.id ann) (now calm) JWT_SECRET <> "") by discriminate.
  split; [reflexivity|]. split; [reflexivity|]. split; [exact sample_world_consistent|].
  exact (login_then_me (P := sample_platform) calm calm
           (request None "" (credentials "a@x.com" "p"))
           (request (Some "Bearer s3cret.u1") "" JNull) sample_world
           (mkSignin "a@x.com" "p") ann eq_refl eq_refl Hne sample_world_consistent
           eq_refl eq_refl eq_refl eq_refl eq_refl eq_refl).
Defined.

Lemma login_page_requires_both_fields_witness :
  LoginPage.password (filled_in "a@x.com" "") = "" /\
  handleSubmit no_trim (post_login calm) (filled_in "a@x.com" "") new_browser sample_world =
    (LoginPage.mk "a@x.com" "" (JStr "Email and password are required") false,
     new_browser, sample_world).
Proof.
  split; [reflexivity|].
  exact (login_page_requires_both_fields no_trim (post_login calm)
           (filled_in "a@x.com" "") new_browser sample_world (or_intror eq_refl)).
Defined.

Lemma login_page_shows_server_message_witness :
  handleSubmit no_trim (fun _ (net : unit) => (net, Some (fail 429 "Too many requests")))
               (filled_in "a@x.com" "p") new_browser tt =
    (LoginPage.mk "a@x.com" "p" (JStr "Too many requests") false, new_browser, tt) /\
  handleSubmit no_trim (fun _ (net : unit) => (net, None))
               (filled_in "a@x.com" "p") new_browser tt =
    (LoginPage.mk "a@x.com" "p" (JStr "Login failed. Please try again.") false,
     new_browser, tt).
Proof.
  assert (He : LoginPage.email (filled_in "a@x.com" "p") <> "") by discriminate.
  assert (Hp : LoginPage.password (filled_in "a@x.com" "p") <> "") by discriminate.
  assert (Hm : "Too many requests" <> "") by discriminate.
  split.
  - exact (proj1 (login_page_shows_server_message no_trim
                    (fun _ (net : unit) => (net, Some (fail 429 "Too many requests")))
                    (filled_in "a@x.com" "p") new_browser tt tt He Hp)
                 (fail 429 "Too many requests") "Too many requests" eq_refl
                 (or_intror (proj1 (Nat.leb_le 300 429) eq_refl)) eq_refl Hm).
  - exact (proj2 (login_page_shows_server_message no_trim
                    (fun _ (net : unit) => (net, None))
                    (filled_in "a@x.com" "p") new_browser tt tt He Hp) eq_refl).
Defined.

Lemma login_page_against_server_witness :
  (handleSubmit no_trim (post_login calm) (filled_in "a@x.com" "p") new_browser
                sample_world).1 =
    (LoginPage.mk "a@x.com" "p" (JStr "") false,
     mkBrowser (<["token" := "s3cret.u1"]> ∅) ["/dashboard"]) /\
  (handleSubmit no_trim (post_login calm) (filled_in "a@x.com" "P") new_browser
                sample_world).1 =
    (LoginPage.mk "a@x.com" "P" (JStr "Invalid email or password") false, new_browser) /\
  (handleSubmit no_trim (post_login calm) (filled_in "ann" "p") new_browser
                sample_world).1 =
    (LoginPage.mk "ann" "p" (JStr "Invalid email or password format") false, new_browser).
Proof.
  assert (Hok : forall e p, e <> "" -> p <> "" -> _) by
    (exact (fun e p He Hp =>
              login_page_against_server (P := sample_platform) no_trim calm (filled_in e p)
                new_browser sample_world He Hp eq_refl)).
  assert (H1 : "a@x.com" <> "") by discriminate.
  assert (H2 : "p" <> "") by discriminate.
  assert (H3 : "P" <> "") by discriminate.
  assert (H4 : "ann" <> "") by discriminate.
  assert (Htoken : jwt_sign (User.id ann) (now calm) JWT_SECRET <> "") by discriminate.
  split; [|split].
  - exact (proj2 (proj2 (Hok "a@x.com" "p" H1 H2)) ann eq_refl eq_refl eq_refl Htoken).
  - apply (proj1 (proj2 (Hok "a@x.com" "P" H1 H3)) eq_refl).
    intros usr Hfound. vm_compute in Hfound. injection Hfound as <-. discriminate.
  - exact (proj1 (Hok "ann" "p" H4 H2) eq_refl).
Defined.

End MoreSamples.
